(** * A shallow embedding of the FastAPI upload service (main.py, main_comentado.py)

    Both modules define the same global objects: [UPLOAD_DIR = Path("uploads")],
    a [ConnectionManager] holding [active_connections : List[WebSocket]], and the
    endpoints [websocket_endpoint], [upload_file], [list_all_files],
    [list_user_files] and [get_file].  [main_comentado.py] adds
    [ALLOWED_EXTENSIONS], [MAX_FILE_SIZE] and three "Security:" blocks.

    Python strings are modelled as ASCII [string]s, [pathlib] paths as a flag
    (absolute or not) with their list of parts, the disk as a finite map from
    absolute, normalised component lists to nodes (no symbolic links; Linux's
    [NAME_MAX] and [PATH_MAX] limits on lookups), and the
    request handlers as functions in a small state and exception monad over the
    process world (disk, connection registry, and the log of websocket sends). *)

From Stdlib Require Import String Ascii ZArith NArith Bool List.
From stdpp Require Import base gmap strings list.

Local Open Scope string_scope.

Local Notation "a +s+ b" := (String.append a b) (at level 60, right associativity).

(** ** Python string helpers *)
Module PyStr.

(** [s.split(c)] for a one-character separator: always at least one piece. *)
Fixpoint split_on (c : ascii) (s : string) : list string :=
  match s with
  | EmptyString => [EmptyString]
  | String x r =>
      if Ascii.eqb x c then EmptyString :: split_on c r
      else match split_on c r with
           | h :: t => String x h :: t
           | [] => [String x EmptyString]
           end
  end.

(** [c in s] *)
Fixpoint contains (c : ascii) (s : string) : bool :=
  match s with
  | EmptyString => false
  | String x r => Ascii.eqb x c || contains c r
  end.

(** [s.startswith(p)] *)
Definition startswith (s p : string) : bool := String.prefix p s.

(** [s.rfind(c)]: [None] stands for Python's [-1]. *)
Fixpoint rfind (c : ascii) (s : string) : option nat :=
  match s with
  | EmptyString => None
  | String x r =>
      match rfind c r with
      | Some i => Some (S i)
      | None => if Ascii.eqb x c then Some 0 else None
      end
  end.

(** [s.lower()] on ASCII letters. *)
Definition lower_char (x : ascii) : ascii :=
  let n := nat_of_ascii x in
  if (65 <=? n)%nat && (n <=? 90)%nat then ascii_of_nat (n + 32) else x.

Fixpoint lower (s : string) : string :=
  match s with
  | EmptyString => EmptyString
  | String x r => String (lower_char x) (lower r)
  end.

(** [s.split(c, 1)[1]]: what follows the first [c] (only used when [c in s]). *)
Fixpoint after_first (c : ascii) (s : string) : string :=
  match s with
  | EmptyString => EmptyString
  | String x r => if Ascii.eqb x c then r else after_first c r
  end.

End PyStr.

(** ** pathlib.PurePosixPath *)
Module PPath.

Record t := mk { p_abs : bool; p_parts : list string }.

(** [Path(s)]: split on "/", dropping empty parts and "." (pathlib keeps ".."). *)
Definition parse (s : string) : t :=
  {| p_abs := PyStr.startswith s "/";
     p_parts := filter (fun x => negb (String.eqb x "" || String.eqb x "."))
                       (PyStr.split_on "/" s) |}.

(** [p / s]: an absolute right operand replaces the left one. *)
Definition join (p : t) (s : string) : t :=
  let q := parse s in
  if p_abs q then q else {| p_abs := p_abs p; p_parts := p_parts p ++ p_parts q |}.

Fixpoint last_part (l : list string) : string :=
  match l with
  | [] => ""
  | [x] => x
  | _ :: r => last_part r
  end.

(** [p.name] *)
Definition name (p : t) : string := last_part (p_parts p).

(** [p.suffix]: [i = name.rfind('.'); name[i:] if 0 < i < len(name) - 1 else '']. *)
Definition suffix (p : t) : string :=
  let n := name p in
  match PyStr.rfind "." n with
  | Some i =>
      if (0 <? i)%nat && (i <? String.length n - 1)%nat
      then String.substring i (String.length n - i) n else ""
  | None => ""
  end.

(** One step of lexical normalisation: ".." drops the last component, and
    the root's parent is the root. *)
Definition step (cur : list string) (c : string) : list string :=
  if String.eqb c ".." then removelast cur
  else if String.eqb c "." || String.eqb c "" then cur
  else cur ++ [c].

Definition normalize (cur : list string) (cs : list string) : list string :=
  fold_left step cs cur.

(** [p.resolve()] with no symbolic links: made absolute against the working
    directory [cwd], then ".." removed lexically (os.path.realpath). *)
Definition resolve (cwd : list string) (p : t) : list string :=
  if p_abs p then normalize [] (p_parts p) else normalize cwd (p_parts p).

(** [str(p)] of an absolute path given by its components. *)
Definition abs_str (q : list string) : string := "/" +s+ String.concat "/" q.

(** [str(p)], the string [os.stat] and [os.listdir] are handed. *)
Definition to_str (p : t) : string :=
  if p_abs p then abs_str (p_parts p)
  else match p_parts p with [] => "." | _ => String.concat "/" (p_parts p) end.

End PPath.

(** ** The disk *)
Module FS.

Inductive node := Dir | File (data : list Byte.byte).

(** Keys are absolute, normalised component lists; the root [[]] is a directory. *)
Abbreviation fsys := (gmap (list string) node).

Definition node_at (fs : fsys) (q : list string) : option node :=
  match q with [] => Some Dir | _ => fs !! q end.

Definition is_dir_at (fs : fsys) (q : list string) : bool :=
  match node_at fs q with Some Dir => true | _ => false end.

Definition is_file_at (fs : fsys) (q : list string) : bool :=
  match node_at fs q with Some (File _) => true | _ => false end.

(** The errors a lookup on this disk can fail with. *)
Inductive errno := ENOENT | ENOTDIR | ENAMETOOLONG.

(** Linux limits: a file name has at most [NAME_MAX] bytes, and the path
    string handed to a system call is shorter than [PATH_MAX] bytes. *)
Definition NAME_MAX : nat := 255.
Definition PATH_MAX : nat := 4096.

(** The kernel's path walk: every component is looked up in the directory
    reached so far, which must exist (else ENOENT) and be a directory (else
    ENOTDIR); the file system refuses a name over [NAME_MAX] bytes. *)
Fixpoint walk (fs : fsys) (cur : list string) (cs : list string) : errno + list string :=
  match cs with
  | [] => inr cur
  | c :: r =>
      if is_dir_at fs cur then
        if (NAME_MAX <? String.length c)%nat then inl ENAMETOOLONG
        else walk fs (PPath.step cur c) r
      else inl (if is_file_at fs cur then ENOTDIR else ENOENT)
  end.

Section Cwd.
Variable cwd : list string.

(** The node a (possibly relative) path names, as a system call on [str(p)]
    looks it up: a path string of [PATH_MAX] bytes or more is refused first. *)
Definition lookup (fs : fsys) (p : PPath.t) : errno + list string :=
  if (PATH_MAX <=? String.length (PPath.to_str p))%nat then inl ENAMETOOLONG
  else walk fs (if PPath.p_abs p then [] else cwd) (PPath.p_parts p).

Definition os_path (fs : fsys) (p : PPath.t) : option (list string) :=
  match lookup fs p with inr q => Some q | inl _ => None end.

(** [_ignore_error] of pathlib (Python 3.11, 3.12): ENOENT and ENOTDIR (and
    EBADF, ELOOP, which this disk cannot produce). *)
Definition ignored (e : errno) : bool :=
  match e with ENOENT | ENOTDIR => true | ENAMETOOLONG => false end.

(** [p.exists()], [p.is_dir()], [p.is_file()]: [p.stat()], then a test of
    the node found; an ignored error is [False], any other is raised
    ([inl]). A missing last component is ENOENT, hence [False]. *)
Definition stat_test (test : option node -> bool) (fs : fsys) (p : PPath.t) : errno + bool :=
  match lookup fs p with
  | inr q => inr (test (node_at fs q))
  | inl e => if ignored e then inr false else inl e
  end.

Definition exists_ (fs : fsys) (p : PPath.t) : errno + bool :=
  stat_test (fun n => match n with Some _ => true | None => false end) fs p.

Definition is_dir (fs : fsys) (p : PPath.t) : errno + bool :=
  stat_test (fun n => match n with Some Dir => true | _ => false end) fs p.

Definition is_file (fs : fsys) (p : PPath.t) : errno + bool :=
  stat_test (fun n => match n with Some (File _) => true | _ => false end) fs p.

(** The names a directory lists, in the order it lists them. *)
Definition children (fs : fsys) (q : list string) : list string :=
  omap (fun '(k, _) =>
          match k with
          | [] => None
          | _ => if bool_decide (removelast k = q) then Some (PPath.last_part k) else None
          end) (map_to_list fs).

(** [p.iterdir()]: [os.listdir(p)], which fails unless [p] is a directory. *)
Definition iterdir (fs : fsys) (p : PPath.t) : errno + list PPath.t :=
  match lookup fs p with
  | inr q =>
      match node_at fs q with
      | Some Dir => inr (map (PPath.join p) (children fs q))
      | Some (File _) => inl ENOTDIR
      | None => inl ENOENT
      end
  | inl e => inl e
  end.

End Cwd.
End FS.

(** ** The process world and the handler monad *)

(** A websocket is known by its identity only. *)
Abbreviation conn := nat.

Inductive detail :=
  | UserIdRequired   (* "user_id is required" *)
  | TypeNotAllowed   (* "Tipo de archivo no permitido. ..." *)
  | TooLarge         (* "Archivo muy grande. ..." *)
  | AccessDenied     (* "Acceso denegado" *)
  | FileNotFound.    (* "File not found" *)

(** The exceptions the handlers can raise; all are subclasses of [Exception]. *)
Inductive exn :=
  | HTTPException (status_code : Z) (d : detail)
  | ValueError                     (* list.remove of an absent element *)
  | OSError                        (* mkdir / open failures *)
  | SendError.                     (* websocket.send_text on a dead socket *)

Record world := {
  w_fs : FS.fsys;
  w_conns : list conn;                      (* manager.active_connections *)
  w_sent : list (conn * string * bool)      (* send_text attempts, in order, and success *)
}.

Inductive result (A : Type) := Ok (a : A) | Raise (e : exn).
Arguments Ok {A} a.
Arguments Raise {A} e.

Definition PyM (A : Type) := world -> result A * world.

Definition ret {A} (a : A) : PyM A := fun w => (Ok a, w).
Definition raise {A} (e : exn) : PyM A := fun w => (Raise e, w).
Definition bind {A B} (m : PyM A) (k : A -> PyM B) : PyM B :=
  fun w => match m w with
           | (Ok a, w') => k a w'
           | (Raise e, w') => (Raise e, w')
           end.

Notation "'let*' x ':=' m 'in' k" := (bind m (fun x => k))
  (at level 200, x name, m at level 100, k at level 200).

(** [try: m  except Exception: h] *)
Definition try_except {A} (m : PyM A) (h : exn -> PyM A) : PyM A :=
  fun w => match m w with
           | (Ok a, w') => (Ok a, w')
           | (Raise e, w') => h e w'
           end.

Definition get_conns : PyM (list conn) := fun w => (Ok (w_conns w), w).
Definition set_conns (l : list conn) : PyM unit :=
  fun w => (Ok tt, {| w_fs := w_fs w; w_conns := l; w_sent := w_sent w |}).
Definition get_fs : PyM FS.fsys := fun w => (Ok (w_fs w), w).
Definition set_fs (fs : FS.fsys) : PyM unit :=
  fun w => (Ok tt, {| w_fs := fs; w_conns := w_conns w; w_sent := w_sent w |}).

(** A failed system call reaches Python as an [OSError]. *)
Definition os_call {A} (r : FS.errno + A) : PyM A :=
  match r with inr a => ret a | inl _ => raise OSError end.

(** Sequencing of system calls that do not change the world. *)
Definition sbind {A B} (r : FS.errno + A) (k : A -> FS.errno + B) : FS.errno + B :=
  match r with inl e => inl e | inr a => k a end.

Notation "'let!' x ':=' r 'in' k" := (sbind r (fun x => k))
  (at level 200, x name, r at level 100, k at level 200).

(** ** The application, parameterised by the process's working directory and
    by which websockets currently accept a [send_text] *)
Section App.
Variable cwd : list string.
Variable send_ok : conn -> bool.

(** [UPLOAD_DIR = Path("uploads")] *)
Definition UPLOAD_DIR : PPath.t := PPath.parse "uploads".

(** *** ConnectionManager *)

(** [self.active_connections.append(websocket)] after [websocket.accept()]. *)
Definition connect (ws : conn) : PyM unit :=
  let* cs := get_conns in set_conns (cs ++ [ws]).

(** [list.remove(x)]: drops the first occurrence, [ValueError] when absent. *)
Fixpoint list_remove (x : conn) (l : list conn) : option (list conn) :=
  match l with
  | [] => None
  | y :: r =>
      if Nat.eqb y x then Some r
      else match list_remove x r with Some r' => Some (y :: r') | None => None end
  end.

Definition disconnect (ws : conn) : PyM unit :=
  let* cs := get_conns in
  match list_remove ws cs with
  | Some cs' => set_conns cs'
  | None => raise ValueError
  end.

(** [await connection.send_text(message)]: every attempt is logged. *)
Definition send_text (c : conn) (message : string) : PyM unit :=
  fun w =>
    let w' := {| w_fs := w_fs w; w_conns := w_conns w;
                 w_sent := w_sent w ++ [(c, message, send_ok c)] |} in
    if send_ok c then (Ok tt, w') else (Raise SendError, w').

(** [websocket_endpoint]: [manager.connect] when the socket opens, and
    [manager.disconnect] when [receive_text] raises [WebSocketDisconnect]. *)
Definition websocket_opened (ws : conn) : PyM unit := connect ws.
Definition websocket_disconnected (ws : conn) : PyM unit := disconnect ws.

(** What the event loop runs while [broadcast] is suspended in an [await]:
    nothing, or the [websocket_endpoint] task of a socket that opens or
    leaves [receive_text] with [WebSocketDisconnect]. *)
Inductive task := Idle | Opens (ws : conn) | Closes (ws : conn).

(** Another task's exception ends that task, not [broadcast]. *)
Definition other_task (t : task) : PyM unit :=
  try_except (match t with
              | Idle => ret tt
              | Opens ws => websocket_opened ws
              | Closes ws => websocket_disconnected ws
              end) (fun _ => ret tt).

(** [for connection in self.active_connections:
       try: await connection.send_text(message)
       except Exception: pass]
    The loop walks the live list by index, as CPython's list iterator does:
    step [i] reads [active_connections[i]] anew and the loop stops once [i]
    is past the end. [sched] gives, for each [await], the task that runs
    while [broadcast] is suspended there. [fuel] only bounds the recursion;
    [broadcast_live] gives enough of it (see [broadcast_iter_fuel]). *)
Fixpoint broadcast_iter (fuel i : nat) (message : string) (sched : list task) : PyM unit :=
  match fuel with
  | O => ret tt
  | S fuel' =>
      let* cs := get_conns in
      match cs !! i with
      | None => ret tt
      | Some connection =>
          let* _ := try_except (send_text connection message) (fun _ => ret tt) in
          let* _ := other_task (hd Idle sched) in
          broadcast_iter fuel' (S i) message (tl sched)
      end
  end.

Definition broadcast_live (message : string) (sched : list task) : PyM unit :=
  fun w => broadcast_iter (length (w_conns w) + length sched + 1) 0 message sched w.

(** [manager.broadcast(message)] in a run where no other task is scheduled
    while it is suspended (the runs the [upload_file] models below follow). *)
Definition broadcast (message : string) : PyM unit := broadcast_live message [].

(** *** Disk effects *)

(** [p.mkdir(exist_ok=True)] *)
Definition mkdir_exist_ok (p : PPath.t) : PyM unit :=
  let* fs := get_fs in
  match FS.os_path cwd fs p with
  | None => raise OSError
  | Some q =>
      match FS.node_at fs q with
      | Some FS.Dir => ret tt
      | Some (FS.File _) => raise OSError
      | None => set_fs (<[q := FS.Dir]> fs)
      end
  end.

(** [with p.open("wb") as buffer: shutil.copyfileobj(src, buffer)] where
    [src] yields [bytes]. *)
Definition write_file (p : PPath.t) (bytes : list Byte.byte) : PyM unit :=
  let* fs := get_fs in
  match FS.os_path cwd fs p with
  | None => raise OSError
  | Some q =>
      match FS.node_at fs q with
      | Some FS.Dir => raise OSError
      | _ => set_fs (<[q := FS.File bytes]> fs)
      end
  end.

(** *** upload_file *)

(** The [UploadFile]: its [filename] and its spooled [file] with a read position. *)
Record UploadFile := {
  filename : option string;
  file_data : list Byte.byte;
  file_pos : N
}.

Record upload_resp := {
  r_file_id : string;
  r_filename : option string;
  r_user_id : string;
  r_url : string
}.

(** [f"{x}"] of an [Optional[str]] *)
Definition py_fstr (o : option string) : string :=
  match o with Some s => s | None => "None" end.

(** [safe_filename = f"{file_id}_{file.filename}"] *)
Definition safe_filename (file_id : string) (fname : option string) : string :=
  file_id +s+ "_" +s+ py_fstr fname.

Definition file_url (user_id name : string) : string :=
  "http://127.0.0.1:8000/files/" +s+ user_id +s+ "/" +s+ name.

(** The double quote character. *)
Definition dq : string := String (ascii_of_nat 34) EmptyString.

(** ['{"event": "new_file"}'] *)
Definition new_file_event : string :=
  "{" +s+ dq +s+ "event" +s+ dq +s+ ": " +s+ dq +s+ "new_file" +s+ dq +s+ "}".

(** [copyfileobj] reads from the current position to the end. *)
Definition read_rest (file : UploadFile) (pos : N) : list Byte.byte :=
  drop (N.to_nat pos) (file_data file).

(** main.py: [upload_file]; [file_id] is the [str(uuid.uuid4())] drawn. *)
Definition upload_file_main (file_id : string) (file : UploadFile) (user_id : string)
  : PyM upload_resp :=
  if String.eqb user_id "" then raise (HTTPException 400 UserIdRequired) else
  let user_dir := PPath.join UPLOAD_DIR user_id in
  let* _ := mkdir_exist_ok user_dir in
  let safe := safe_filename file_id (filename file) in
  let file_path := PPath.join user_dir safe in
  let* _ := write_file file_path (read_rest file (file_pos file)) in
  let* _ := broadcast new_file_event in
  ret {| r_file_id := file_id; r_filename := filename file; r_user_id := user_id;
         r_url := file_url user_id safe |}.

Definition ALLOWED_EXTENSIONS : list string :=
  [".jpg"; ".jpeg"; ".png"; ".gif"; ".webp"; ".pdf"; ".doc"; ".docx"; ".xlsx";
   ".xls"; ".txt"; ".csv"].

Definition MAX_FILE_SIZE : N := 10 * 1024 * 1024.

(** [Path(file.filename).suffix.lower() if file.filename else ''] *)
Definition file_ext (fname : option string) : string :=
  match fname with
  | Some n => if String.eqb n "" then "" else PyStr.lower (PPath.suffix (PPath.parse n))
  | None => ""
  end.

Definition ext_allowed (ext : string) : bool :=
  existsb (String.eqb ext) ALLOWED_EXTENSIONS.

(** main_comentado.py: [upload_file]. *)
Definition upload_file_comentado (file_id : string) (file : UploadFile) (user_id : string)
  : PyM upload_resp :=
  if String.eqb user_id "" then raise (HTTPException 400 UserIdRequired) else
  let ext := file_ext (filename file) in
  if negb (ext_allowed ext) then raise (HTTPException 400 TypeNotAllowed) else
  let pos_end := N.of_nat (length (file_data file)) in   (* file.file.seek(0, 2) *)
  let file_size := pos_end in                            (* file.file.tell() *)
  let pos := 0%N in                                      (* file.file.seek(0) *)
  if (MAX_FILE_SIZE <? file_size)%N then raise (HTTPException 413 TooLarge) else
  let user_dir := PPath.join UPLOAD_DIR user_id in
  let* _ := mkdir_exist_ok user_dir in
  let safe := safe_filename file_id (filename file) in
  let file_path := PPath.join user_dir safe in
  let* _ := write_file file_path (read_rest file pos) in
  let* _ := broadcast new_file_event in
  ret {| r_file_id := file_id; r_filename := filename file; r_user_id := user_id;
         r_url := file_url user_id safe |}.

(** *** Listing (identical in both modules) *)

Record entry := {
  e_user_id : string;
  e_filename : string;
  e_stored_filename : string;
  e_url : string
}.

(** [name.split('_', 1)[1] if '_' in name else name] *)
Definition original_name (name : string) : string :=
  if PyStr.contains "_" name then PyStr.after_first "_" name else name.

Definition mk_entry (user_id name : string) : entry :=
  {| e_user_id := user_id; e_filename := original_name name;
     e_stored_filename := name; e_url := file_url user_id name |}.

(** The inner loop: [for file_path in d.iterdir(): if file_path.is_file():
    files.append(...)]. *)
Fixpoint collect (fs : FS.fsys) (user_id : string) (fps : list PPath.t) : FS.errno + list entry :=
  match fps with
  | [] => inr []
  | fp :: r =>
      let! b := FS.is_file cwd fs fp in
      let! es := collect fs user_id r in
      inr (if b then mk_entry user_id (PPath.name fp) :: es else es)
  end.

Definition files_of (fs : FS.fsys) (user_id : string) (d : PPath.t) : FS.errno + list entry :=
  let! fps := FS.iterdir cwd fs d in collect fs user_id fps.

Definition list_user_files (user_id : string) : PyM (list entry) :=
  let* fs := get_fs in
  let user_dir := PPath.join UPLOAD_DIR user_id in
  let* ex := os_call (FS.exists_ cwd fs user_dir) in
  let* isd := (if ex then os_call (FS.is_dir cwd fs user_dir) else ret false) in
  if isd then os_call (files_of fs user_id user_dir) else ret [].

(** The outer loop of [list_all_files]: [for user_dir in UPLOAD_DIR.iterdir():
    if user_dir.is_dir(): ...] with [user_id = user_dir.name]. *)
Fixpoint gather (fs : FS.fsys) (dirs : list PPath.t) : FS.errno + list entry :=
  match dirs with
  | [] => inr []
  | user_dir :: r =>
      let! isd := FS.is_dir cwd fs user_dir in
      let! es := (if isd then files_of fs (PPath.name user_dir) user_dir else inr []) in
      let! rest := gather fs r in
      inr (es ++ rest)%list
  end.

Definition list_all_files : PyM (list entry) :=
  let* fs := get_fs in
  let* ex := os_call (FS.exists_ cwd fs UPLOAD_DIR) in
  if ex then os_call (let! dirs := FS.iterdir cwd fs UPLOAD_DIR in gather fs dirs)
  else ret [].

(** *** get_file *)

(** main.py: [FileResponse(UPLOAD_DIR / user_id / filename)] after the exists check. *)
Definition get_file_main (user_id fname : string) : PyM PPath.t :=
  let* fs := get_fs in
  let file_path := PPath.join (PPath.join UPLOAD_DIR user_id) fname in
  let* ex := os_call (FS.exists_ cwd fs file_path) in
  if negb ex then raise (HTTPException 404 FileNotFound)
  else ret file_path.

(** main_comentado.py: resolve, then [str(file_path).startswith(str(UPLOAD_DIR.resolve()))]. *)
Definition get_file_comentado (user_id fname : string) : PyM PPath.t :=
  let* fs := get_fs in
  let file_path := PPath.mk true (PPath.resolve cwd (PPath.join (PPath.join UPLOAD_DIR user_id) fname)) in
  if negb (PyStr.startswith (PPath.abs_str (PPath.p_parts file_path))
                            (PPath.abs_str (PPath.resolve cwd UPLOAD_DIR)))
  then raise (HTTPException 403 AccessDenied)
  else
    let* ex := os_call (FS.exists_ cwd fs file_path) in
    if negb ex then raise (HTTPException 404 FileNotFound)
    else ret file_path.

(** What the [FileResponse] streams: the bytes of the regular file the path
    names ([None]: starlette fails when it stats the path). *)
Definition serve (fs : FS.fsys) (p : PPath.t) : option (list Byte.byte) :=
  match FS.os_path cwd fs p with
  | Some q => match FS.node_at fs q with Some (FS.File d) => Some d | _ => None end
  | None => None
  end.

End App.

(** ** Uuid4 strings: [str(uuid.uuid4())] is 8-4-4-4-12 lowercase hex digits,
    version digit 4, variant digit in 8, 9, a, b. *)
Definition is_hex (c : ascii) : bool :=
  let n := nat_of_ascii c in (((48 <=? n) && (n <=? 57)) || ((97 <=? n) && (n <=? 102)))%nat.

Definition uuid4_char_ok (i : nat) (c : ascii) : bool :=
  if existsb (Nat.eqb i) [8; 13; 18; 23]%nat then Ascii.eqb c "-"
  else if Nat.eqb i 14%nat then Ascii.eqb c "4"
  else if Nat.eqb i 19%nat then existsb (Ascii.eqb c) ["8"; "9"; "a"; "b"]%char
  else is_hex c.

Fixpoint uuid4_chars_ok (i : nat) (s : string) : bool :=
  match s with
  | EmptyString => true
  | String c r => uuid4_char_ok i c && uuid4_chars_ok (S i) r
  end.

Definition is_uuid4 (s : string) : bool :=
  Nat.eqb (String.length s) 36%nat && uuid4_chars_ok 0 s.

(** A canonical path lies within the canonical root when the root's
    components are a prefix of its components. *)
Definition within (root q : list string) : Prop := exists rest, q = (root ++ rest)%list.

(** The registry is left as it was by a handler step. *)
Definition keeps_conns {A} (m : PyM A) : Prop :=
  forall w, w_conns (snd (m w)) = w_conns w.

(** The world is left as it was (no directory, no file, no send). *)
Definition rejects_with {A} (m : PyM A) (w : world) (e : exn) : Prop :=
  m w = (Raise e, w).

(** A handler step that can only fail with an [OSError]. *)
Definition only_oserror {A} (m : PyM A) : Prop :=
  forall w e, fst (m w) = Raise e -> e = OSError.

(** A path segment that [Path(s)] keeps as one relative part: non-empty,
    without "/", and neither "." nor "..". *)
Definition plain_name (s : string) : bool :=
  negb (String.eqb s "") && negb (PyStr.contains "/" s) &&
  negb (String.eqb s ".") && negb (String.eqb s "..").

(** How many sockets a task can add to the registry. *)
Definition task_growth (t : task) : nat :=
  match t with Opens _ => 1%nat | _ => 0%nat end.

(** No other task runs during that [await]. *)
Definition is_idle (t : task) : bool :=
  match t with Idle => true | _ => false end.



(** Strings of 7-bit ASCII characters, on which [PyStr.lower] is Python's
    [str.lower]. *)
Fixpoint is_ascii7 (s : string) : bool :=
  match s with
  | EmptyString => true
  | String c r => (nat_of_ascii c <? 128)%nat && is_ascii7 r
  end.

(** [c * n] *)
Fixpoint str_repeat (n : nat) (c : ascii) : string :=
  match n with
  | O => EmptyString
  | S k => String c (str_repeat k c)
  end.

(** ** Concrete deployments used by the examples below *)

(** The service runs in [/srv]; next to [/srv/uploads] lie [/srv/uploads.bak]
    and [/srv/secret.txt]. *)
Definition srv_cwd : list string := ["srv"].

Definition srv_fs : FS.fsys :=
  <[["srv"] := FS.Dir]> (<[["srv"; "uploads"] := FS.Dir]>
    (<[["srv"; "uploads.bak"] := FS.File [Byte.x01]]>
      (<[["srv"; "secret.txt"] := FS.File [Byte.x02]]> ∅))).

Definition srv_world : world := {| w_fs := srv_fs; w_conns := []; w_sent := [] |}.

(** An upload that must not be stored: an executable. *)
Definition exe_upload : UploadFile :=
  {| filename := Some "a.exe"; file_data := [Byte.x00]; file_pos := 0 |}.

Definition pdf_upload : UploadFile :=
  {| filename := Some "report.pdf"; file_data := [Byte.x25; Byte.x50]; file_pos := 0 |}.

(** A value [str(uuid.uuid4())] can take. *)
Definition sample_uuid4 : string := "1b4e28ba-2fa1-41d2-883f-0016d3cca427".

(** A deployment where [/srv/uploads] is missing and two websockets listen. *)
Definition bare_world : world :=
  {| w_fs := <[["srv"] := FS.Dir]> ∅; w_conns := [1; 2]%nat; w_sent := [] |}.

(** The deployment of [srv_world] with two websockets listening. *)
Definition listening_world : world :=
  {| w_fs := srv_fs; w_conns := [1; 2]%nat; w_sent := [] |}.

(** Three listening websockets; socket 1 is closed by its client, so its
    [send_text] fails. *)
Definition chat_world : world :=
  {| w_fs := ∅; w_conns := [1; 2; 3]%nat; w_sent := [] |}.

Definition first_dead (c : conn) : bool := negb (Nat.eqb c 1).

(** A [user_id] of 256 bytes, one over [NAME_MAX]. *)
Definition long_user_id : string := str_repeat 256 "a".

(** A payload one byte over the ceiling. *)
Definition oversized_upload : UploadFile :=
  {| filename := Some "big.exe"; file_data := repeat Byte.x00 (S (N.to_nat MAX_FILE_SIZE));
     file_pos := 0 |}.

(** ** Theorems *)

Section Registry.

Lemma keeps_ret {A} (a : A) : keeps_conns (ret a).
Proof. intros w. reflexivity. Qed.

Lemma keeps_raise {A} (e : exn) : keeps_conns (A := A) (raise e).
Proof. intros w. reflexivity. Qed.

Lemma keeps_get_fs : keeps_conns get_fs.
Proof. intros w. reflexivity. Qed.

Lemma keeps_set_fs fs : keeps_conns (set_fs fs).
Proof. intros w. reflexivity. Qed.

Lemma keeps_bind {A B} (m : PyM A) (k : A -> PyM B) :
  keeps_conns m -> (forall a, keeps_conns (k a)) -> keeps_conns (bind m k).
Proof.
  intros Hm Hk w. unfold bind. specialize (Hm w).
  destruct (m w) as [[a|e] w'] eqn:E; simpl in *; [rewrite Hk|]; exact Hm.
Qed.

Lemma keeps_try {A} (m : PyM A) (h : exn -> PyM A) :
  keeps_conns m -> (forall e, keeps_conns (h e)) -> keeps_conns (try_except m h).
Proof.
  intros Hm Hh w. unfold try_except. specialize (Hm w).
  destruct (m w) as [[a|e] w'] eqn:E; simpl in *; [|rewrite Hh]; exact Hm.
Qed.

Lemma keeps_os_call {A} (r : FS.errno + A) : keeps_conns (os_call r).
Proof. intros w. destruct r; reflexivity. Qed.

Lemma keeps_send_text send_ok c msg : keeps_conns (send_text send_ok c msg).
Proof. intros w. unfold send_text. destruct (send_ok c); reflexivity. Qed.

Lemma keeps_get_conns : keeps_conns get_conns.
Proof. intros w. reflexivity. Qed.

End Registry.

Create HintDb conns_db.
#[export] Hint Resolve keeps_ret keeps_raise keeps_get_fs keeps_set_fs keeps_bind
  keeps_try keeps_os_call keeps_send_text keeps_get_conns : conns_db.

Ltac keeps_step :=
  repeat (intros; first
    [ progress auto with conns_db
    | apply keeps_bind
    | match goal with
      | |- keeps_conns (if ?b then _ else _) => destruct b
      | |- keeps_conns (match ?x with _ => _ end) => destruct x
      end ]).

(** *** The broadcast loop *)

Lemma try_send_eq send_ok c msg (w : world) :
  try_except (send_text send_ok c msg) (fun _ => ret tt) w =
  (Ok tt, {| w_fs := w_fs w; w_conns := w_conns w; w_sent := w_sent w ++ [(c, msg, send_ok c)] |}).
Proof. unfold try_except, send_text, ret. destruct (send_ok c); reflexivity. Qed.

Lemma try_pass_ok (m : PyM unit) (w : world) :
  try_except m (fun _ => ret tt) w = (Ok tt, snd (try_except m (fun _ => ret tt) w)).
Proof. unfold try_except, ret. destruct (m w) as [[[]|e] w']; reflexivity. Qed.

Lemma other_task_ok t (w : world) : other_task t w = (Ok tt, snd (other_task t w)).
Proof. apply try_pass_ok. Qed.

Lemma broadcast_iter_S send_ok f i msg sched (w : world) :
  broadcast_iter send_ok (S f) i msg sched w =
  match w_conns w !! i with
  | None => (Ok tt, w)
  | Some c =>
      broadcast_iter send_ok f (S i) msg (tl sched)
        (snd (other_task (hd Idle sched)
           {| w_fs := w_fs w; w_conns := w_conns w; w_sent := w_sent w ++ [(c, msg, send_ok c)] |}))
  end.
Proof.
  cbn [broadcast_iter]. unfold bind at 1, get_conns.
  destruct (w_conns w !! i) as [c|]; [|reflexivity].
  unfold bind at 1. rewrite try_send_eq. unfold bind at 1. rewrite other_task_ok. reflexivity.
Qed.

Lemma list_remove_length x l l' : list_remove x l = Some l' -> (length l' <= length l)%nat.
Proof.
  revert l'. induction l as [|y r IH]; intros l' H; simpl in H; [discriminate H|].
  destruct (Nat.eqb y x); [injection H as <-; simpl; lia|].
  destruct (list_remove x r) as [r'|]; [|discriminate H].
  injection H as <-. simpl. specialize (IH r' eq_refl). lia.
Qed.

Lemma other_task_len t (w : world) :
  (length (w_conns (snd (other_task t w))) <= length (w_conns w) + task_growth t)%nat.
Proof.
  unfold other_task, try_except. destruct t as [|ws|ws]; cbn.
  - lia.
  - rewrite length_app. simpl. lia.
  - destruct (list_remove ws (w_conns w)) as [l'|] eqn:E; cbn; [|lia].
    apply list_remove_length in E. lia.
Qed.

Lemma broadcast_iter_fuel send_ok f i msg sched (w : world) :
  (length (w_conns w) + length sched + 1 <= f + i)%nat ->
  broadcast_iter send_ok (S f) i msg sched w = broadcast_iter send_ok f i msg sched w.
Proof.
  revert i sched w. induction f as [|f IH]; intros i sched w H.
  - rewrite broadcast_iter_S. rewrite lookup_ge_None_2 by lia. reflexivity.
  - rewrite (broadcast_iter_S send_ok (S f)), (broadcast_iter_S send_ok f).
    destruct (w_conns w !! i) as [c|]; [|reflexivity].
    apply IH.
    pose proof (other_task_len (hd Idle sched)
      {| w_fs := w_fs w; w_conns := w_conns w; w_sent := w_sent w ++ [(c, msg, send_ok c)] |}) as L.
    cbn [w_conns] in L.
    assert (length (tl sched) + task_growth (hd Idle sched) <= length sched)%nat
      by (destruct sched as [|[] ?]; simpl; lia).
    lia.
Qed.

Lemma broadcast_iter_ok send_ok f i msg sched (w : world) :
  fst (broadcast_iter send_ok f i msg sched w) = Ok tt.
Proof.
  revert i sched w. induction f as [|f IH]; intros i sched w; [reflexivity|].
  rewrite broadcast_iter_S. destruct (w_conns w !! i); [apply IH|reflexivity].
Qed.

Lemma other_task_idle (w : world) : snd (other_task Idle w) = w.
Proof. reflexivity. Qed.

Lemma broadcast_iter_idle send_ok f i msg sched (w : world) :
  forallb is_idle sched = true ->
  (length (w_conns w) + 1 <= f + i)%nat ->
  broadcast_iter send_ok f i msg sched w =
  (Ok tt, {| w_fs := w_fs w; w_conns := w_conns w;
             w_sent := w_sent w ++ map (fun c => (c, msg, send_ok c)) (drop i (w_conns w)) |}).
Proof.
  revert i sched w. induction f as [|f IH]; intros i sched w Hs H.
  - cbn. rewrite drop_ge by lia. cbn. rewrite app_nil_r. destruct w; reflexivity.
  - rewrite broadcast_iter_S. destruct (w_conns w !! i) as [c|] eqn:E.
    + assert (Hh : hd Idle sched = Idle /\ forallb is_idle (tl sched) = true).
      { destruct sched as [|[] r]; simpl in *; try discriminate Hs; split; auto. }
      destruct Hh as [-> Ht]. rewrite other_task_idle.
      rewrite IH by (exact Ht || (cbn; lia)). cbn.
      rewrite (drop_S _ c i E). cbn. rewrite <- app_assoc. reflexivity.
    + apply lookup_ge_None in E. rewrite drop_ge by lia. cbn. rewrite app_nil_r.
      destruct w; reflexivity.
Qed.

Lemma broadcast_snapshot send_ok msg (w : world) :
  broadcast send_ok msg w =
  (Ok tt, {| w_fs := w_fs w; w_conns := w_conns w;
             w_sent := w_sent w ++ map (fun c => (c, msg, send_ok c)) (w_conns w) |}).
Proof. unfold broadcast, broadcast_live. rewrite broadcast_iter_idle; [reflexivity..|cbn; lia]. Qed.

Lemma keeps_broadcast send_ok msg : keeps_conns (broadcast send_ok msg).
Proof. intros w. rewrite broadcast_snapshot. reflexivity. Qed.

Lemma keeps_mkdir cwd p : keeps_conns (mkdir_exist_ok cwd p).
Proof. unfold mkdir_exist_ok. apply keeps_bind; [auto with conns_db|]. keeps_step. Qed.

Lemma keeps_write cwd p bytes : keeps_conns (write_file cwd p bytes).
Proof. unfold write_file. apply keeps_bind; [auto with conns_db|]. keeps_step. Qed.

#[export] Hint Resolve keeps_broadcast keeps_mkdir keeps_write : conns_db.

Lemma keeps_upload_main cwd send_ok fid file uid :
  keeps_conns (upload_file_main cwd send_ok fid file uid).
Proof. unfold upload_file_main. keeps_step. Qed.

Lemma keeps_upload_comentado cwd send_ok fid file uid :
  keeps_conns (upload_file_comentado cwd send_ok fid file uid).
Proof. unfold upload_file_comentado. keeps_step. Qed.

Lemma keeps_list_user_files cwd uid : keeps_conns (list_user_files cwd uid).
Proof. unfold list_user_files. keeps_step. Qed.

Lemma keeps_list_all_files cwd : keeps_conns (list_all_files cwd).
Proof. unfold list_all_files. keeps_step. Qed.

Lemma keeps_get_file_main cwd uid fn : keeps_conns (get_file_main cwd uid fn).
Proof. unfold get_file_main. keeps_step. Qed.

Lemma keeps_get_file_comentado cwd uid fn : keeps_conns (get_file_comentado cwd uid fn).
Proof. unfold get_file_comentado. keeps_step. Qed.




(** C6: [broadcast] leaves the registry as it was, whichever sends fail; and
    no endpoint step other than [disconnect] removes a socket: both
    [upload_file]s, the listings and both [get_file]s keep the registry, and
    [connect] only appends. *)
Theorem broadcast_keeps_registry :
  (forall send_ok msg, keeps_conns (broadcast send_ok msg)) /\
  (forall cwd send_ok fid file uid, keeps_conns (upload_file_main cwd send_ok fid file uid)) /\
  (forall cwd send_ok fid file uid, keeps_conns (upload_file_comentado cwd send_ok fid file uid)) /\
  (forall cwd uid, keeps_conns (list_user_files cwd uid)) /\
  (forall cwd, keeps_conns (list_all_files cwd)) /\
  (forall cwd uid fn, keeps_conns (get_file_main cwd uid fn)) /\
  (forall cwd uid fn, keeps_conns (get_file_comentado cwd uid fn)) /\
  (forall ws w, w_conns (snd (connect ws w)) = (w_conns w ++ [ws])%list).
Proof.
  repeat split; intros.
  - apply keeps_broadcast.
  - apply keeps_upload_main.
  - apply keeps_upload_comentado.
  - apply keeps_list_user_files.
  - apply keeps_list_all_files.
  - apply keeps_get_file_main.
  - apply keeps_get_file_comentado.
Qed.

Lemma list_remove_absent (ws : conn) (l : list conn) :
  ~ In ws l -> list_remove ws l = None.
Proof.
  induction l as [|y r IH]; intros Hn; simpl; [reflexivity|].
  destruct (Nat.eqb_spec y ws) as [->|Hne].
  - exfalso. apply Hn. left. reflexivity.
  - rewrite IH; [reflexivity|]. intros Hi. apply Hn. right. exact Hi.
Qed.

(** C5 (as the code has it): [disconnect] of a socket that is not registered
    (for instance a second [disconnect] of the same socket) raises
    [ValueError] from [list.remove] to its caller; the registry, like the
    rest of the world, is left unchanged. *)
Theorem disconnect_absent_raises (ws : conn) (w : world) :
  ~ In ws (w_conns w) -> disconnect ws w = (Raise ValueError, w).
Proof.
  intros Hn. unfold disconnect, bind, get_conns. simpl.
  rewrite list_remove_absent by exact Hn. reflexivity.
Qed.

(** C5: calling [disconnect] twice on the same socket fails the second call. *)
Lemma disconnect_twice_fails :
  let w := {| w_fs := ∅; w_conns := [7%nat]; w_sent := [] |} in
  fst (bind (disconnect 7) (fun _ => disconnect 7) w) = Raise ValueError.
Proof. reflexivity. Qed.

(** Witness of [disconnect_absent_raises] at an empty registry. *)
Lemma disconnect_absent_raises_witness :
  ~ In 3%nat [] /\
  disconnect 3 {| w_fs := ∅; w_conns := []; w_sent := [] |} =
  (Raise ValueError, {| w_fs := ∅; w_conns := []; w_sent := [] |}).
Proof.
  split; [intros H; inversion H|].
  apply (disconnect_absent_raises 3 {| w_fs := ∅; w_conns := []; w_sent := [] |}).
  simpl. intros H; inversion H.
Defined.

(** C1: the canonical root is [/srv/uploads]; [GET /files/%2E%2E/uploads.bak]
    reaches [get_file(user_id="..", filename="uploads.bak")], whose canonical
    path [/srv/uploads.bak] lies outside the root. main_comentado.py compares
    the strings ["/srv/uploads.bak"] and ["/srv/uploads"] with [startswith],
    which holds, so the file is served; main.py has no check at all and
    serves it too. *)
Theorem get_file_serves_outside_root :
  PPath.resolve srv_cwd UPLOAD_DIR = ["srv"; "uploads"] /\
  ~ within (PPath.resolve srv_cwd UPLOAD_DIR) ["srv"; "uploads.bak"] /\
  get_file_comentado srv_cwd ".." "uploads.bak" srv_world =
    (Ok (PPath.mk true ["srv"; "uploads.bak"]), srv_world) /\
  serve srv_cwd srv_fs (PPath.mk true ["srv"; "uploads.bak"]) = Some [Byte.x01] /\
  get_file_main srv_cwd ".." "uploads.bak" srv_world =
    (Ok (PPath.mk false ["uploads"; ".."; "uploads.bak"]), srv_world) /\
  serve srv_cwd srv_fs (PPath.mk false ["uploads"; ".."; "uploads.bak"]) = Some [Byte.x01].
Proof.
  split; [reflexivity|]. split.
  - intros [rest H]. vm_compute in H. congruence.
  - repeat split; vm_compute; reflexivity.
Qed.

(** C3: main.py stores an upload named [a.exe] (its extension is not allowed),
    and main_comentado.py answers an empty [user_id] with the missing-identity
    400 before looking at the extension. *)
Lemma upload_disallowed_ext_counterexample :
  ext_allowed (file_ext (filename exe_upload)) = false /\
  (exists r w', upload_file_main srv_cwd (fun _ => true) "id1" exe_upload "alice" srv_world = (Ok r, w')
     /\ w_fs w' !! ["srv"; "uploads"; "alice"; "id1_a.exe"] = Some (FS.File [Byte.x00])) /\
  upload_file_comentado srv_cwd (fun _ => true) "id1" exe_upload "" srv_world =
    (Raise (HTTPException 400 UserIdRequired), srv_world).
Proof.
  split; [reflexivity|]. split; [|reflexivity].
  vm_compute. eexists _, _. split; [reflexivity|]. vm_compute. reflexivity.
Qed.

(** C3 (as the code has it): in main_comentado.py every upload whose
    extension is outside [ALLOWED_EXTENSIONS] is answered with a 400 and the
    world is left exactly as it was: no directory, no bytes, no broadcast. The
    detail is the disallowed-type one whenever [user_id] is non-empty (an empty
    [user_id] is answered first by the missing-identity 400). *)
Theorem upload_disallowed_ext_rejected cwd send_ok fid (file : UploadFile) uid w :
  ext_allowed (file_ext (filename file)) = false ->
  upload_file_comentado cwd send_ok fid file uid w =
  (Raise (HTTPException 400 (if String.eqb uid "" then UserIdRequired else TypeNotAllowed)), w).
Proof.
  intros H. unfold upload_file_comentado.
  destruct (String.eqb uid ""); [reflexivity|]. rewrite H. reflexivity.
Qed.

Lemma upload_disallowed_ext_rejected_witness :
  ext_allowed (file_ext (filename exe_upload)) = false /\
  upload_file_comentado srv_cwd (fun _ => true) "id1" exe_upload "alice" srv_world =
    (Raise (HTTPException 400 TypeNotAllowed), srv_world).
Proof.
  split; [reflexivity|].
  apply (upload_disallowed_ext_rejected srv_cwd (fun _ => true) "id1" exe_upload "alice" srv_world).
  reflexivity.
Defined.

Lemma only_ret {A} (a : A) : only_oserror (ret a).
Proof. intros w e H. discriminate H. Qed.

Lemma only_bind {A B} (m : PyM A) (k : A -> PyM B) :
  only_oserror m -> (forall a, only_oserror (k a)) -> only_oserror (bind m k).
Proof.
  intros Hm Hk w e H. unfold bind in H.
  destruct (m w) as [[a|e'] w'] eqn:E.
  - exact (Hk a w' e H).
  - simpl in H. injection H as ->. apply (Hm w). rewrite E. reflexivity.
Qed.

Lemma only_mkdir cwd p : only_oserror (mkdir_exist_ok cwd p).
Proof.
  intros w e H. unfold mkdir_exist_ok, bind, get_fs in H. simpl in H.
  destruct (FS.os_path cwd (w_fs w) p) as [q|]; [|injection H; auto].
  destruct (FS.node_at (w_fs w) q) as [[|d]|]; simpl in H; congruence.
Qed.

Lemma only_write cwd p bytes : only_oserror (write_file cwd p bytes).
Proof.
  intros w e H. unfold write_file, bind, get_fs in H. simpl in H.
  destruct (FS.os_path cwd (w_fs w) p) as [q|]; [|injection H; auto].
  destruct (FS.node_at (w_fs w) q) as [[|d]|]; simpl in H; congruence.
Qed.

Lemma only_broadcast send_ok msg : only_oserror (broadcast send_ok msg).
Proof.
  intros w e H. rewrite broadcast_snapshot in H. discriminate H.
Qed.

(** The part of [upload_file] after validation: mkdir, write, broadcast. *)
Lemma only_upload_tail cwd send_ok user_dir file_path bytes (r : upload_resp) :
  only_oserror (let* _ := mkdir_exist_ok cwd user_dir in
                let* _ := write_file cwd file_path bytes in
                let* _ := broadcast send_ok new_file_event in
                ret r).
Proof.
  apply only_bind; [apply only_mkdir|intros _].
  apply only_bind; [apply only_write|intros _].
  apply only_bind; [apply only_broadcast|intros _].
  apply only_ret.
Qed.

(** C4: a payload one byte over 10 MiB named [big.exe] is answered with the
    disallowed-type 400, not with 413: the size check comes after the
    extension check (and main.py has no size check). *)
Lemma upload_oversize_counterexample :
  (MAX_FILE_SIZE < N.of_nat (length (file_data oversized_upload)))%N /\
  upload_file_comentado srv_cwd (fun _ => true) "id1" oversized_upload "alice" srv_world =
    (Raise (HTTPException 400 TypeNotAllowed), srv_world).
Proof.
  split.
  - unfold oversized_upload. cbn [file_data].
    rewrite repeat_length, Nat2N.inj_succ, N2Nat.id. apply N.lt_succ_diag_r.
  - unfold upload_file_comentado. reflexivity.
Qed.

(** C4 (as the code has it): for an upload that passes main_comentado.py's
    identity and extension checks, the size is measured before anything is
    written ([seek(0, 2)], [tell()], [seek(0)]); a payload over
    [MAX_FILE_SIZE = 10 * 1024 * 1024] bytes is answered with 413 and the world
    is left as it was, while a payload of at most [MAX_FILE_SIZE] bytes
    (exactly 10 MiB included) is never answered with 413. *)
Theorem upload_size_ceiling cwd send_ok fid (file : UploadFile) uid w :
  uid <> "" -> ext_allowed (file_ext (filename file)) = true ->
  ((MAX_FILE_SIZE < N.of_nat (length (file_data file)))%N ->
     upload_file_comentado cwd send_ok fid file uid w = (Raise (HTTPException 413 TooLarge), w)) /\
  ((N.of_nat (length (file_data file)) <= MAX_FILE_SIZE)%N ->
     fst (upload_file_comentado cwd send_ok fid file uid w) <> Raise (HTTPException 413 TooLarge)).
Proof.
  intros Hu He. apply String.eqb_neq in Hu.
  unfold upload_file_comentado. cbv zeta. rewrite Hu, He. simpl negb. cbv iota.
  split; intros Hs.
  - rewrite (proj2 (N.ltb_lt _ _) Hs). reflexivity.
  - rewrite (proj2 (N.ltb_ge _ _) Hs). intros Hr.
    apply only_upload_tail in Hr. discriminate Hr.
Qed.

Lemma upload_size_ceiling_witness :
  "alice" <> "" /\ ext_allowed (file_ext (filename pdf_upload)) = true /\
  fst (upload_file_comentado srv_cwd (fun _ => true) "id1" pdf_upload "alice" srv_world)
    <> Raise (HTTPException 413 TooLarge).
Proof.
  split; [discriminate|]. split; [reflexivity|].
  apply (upload_size_ceiling srv_cwd (fun _ => true) "id1" pdf_upload "alice" srv_world);
    [discriminate | reflexivity | vm_compute; discriminate].
Defined.

(** C7: the two [upload_file]s differ on [a.exe] (main.py stores it,
    main_comentado.py answers 400), and the two [get_file]s differ on
    [GET /files/%2E%2E/secret.txt] (main.py finds [/srv/secret.txt],
    main_comentado.py answers 403). *)
Lemma main_comentado_differ :
  fst (upload_file_main srv_cwd (fun _ => true) "id1" exe_upload "alice" srv_world) <>
  fst (upload_file_comentado srv_cwd (fun _ => true) "id1" exe_upload "alice" srv_world) /\
  get_file_main srv_cwd ".." "secret.txt" srv_world =
    (Ok (PPath.mk false ["uploads"; ".."; "secret.txt"]), srv_world) /\
  serve srv_cwd srv_fs (PPath.mk false ["uploads"; ".."; "secret.txt"]) = Some [Byte.x02] /\
  get_file_comentado srv_cwd ".." "secret.txt" srv_world =
    (Raise (HTTPException 403 AccessDenied), srv_world).
Proof.
  split; [vm_compute; discriminate|].
  repeat split; vm_compute; reflexivity.
Qed.

(** C7 (as the code has it): [upload_file] of main.py and of
    main_comentado.py behave identically (same answer, same disk, same
    broadcast) on every upload that passes main_comentado.py's extension and
    size checks, with the spooled file at position 0 as FastAPI hands it over. *)
Theorem upload_agrees_when_checks_pass cwd send_ok fid (file : UploadFile) uid w :
  file_pos file = 0%N ->
  ext_allowed (file_ext (filename file)) = true ->
  (N.of_nat (length (file_data file)) <= MAX_FILE_SIZE)%N ->
  upload_file_main cwd send_ok fid file uid w = upload_file_comentado cwd send_ok fid file uid w.
Proof.
  intros Hp He Hs. unfold upload_file_main, upload_file_comentado. cbv zeta.
  destruct (String.eqb uid ""); [reflexivity|].
  rewrite He. simpl negb. cbv iota.
  rewrite (proj2 (N.ltb_ge _ _) Hs). rewrite Hp. reflexivity.
Qed.

Lemma upload_agrees_when_checks_pass_witness :
  upload_file_main srv_cwd (fun _ => true) "id1" pdf_upload "alice" srv_world =
  upload_file_comentado srv_cwd (fun _ => true) "id1" pdf_upload "alice" srv_world.
Proof.
  apply (upload_agrees_when_checks_pass srv_cwd (fun _ => true) "id1" pdf_upload "alice" srv_world);
    [reflexivity | reflexivity | vm_compute; discriminate].
Defined.

Lemma uuid4_char_not_underscore i c :
  uuid4_char_ok i c = true -> Ascii.eqb c "_" = false.
Proof.
  intros H. destruct (Ascii.eqb_spec c "_") as [->|]; [|reflexivity].
  unfold uuid4_char_ok in H.
  destruct (existsb (Nat.eqb i) [8; 13; 18; 23]%nat);
    [|destruct (Nat.eqb i 14%nat); [|destruct (Nat.eqb i 19%nat)]];
    vm_compute in H; discriminate H.
Qed.

Lemma uuid4_no_underscore s : is_uuid4 s = true -> PyStr.contains "_" s = false.
Proof.
  unfold is_uuid4. intros H. apply andb_prop in H as [_ H].
  revert H. generalize 0%nat. induction s as [|c r IH]; intros i H; simpl; [reflexivity|].
  simpl in H. apply andb_prop in H as [Hc Hr].
  rewrite (uuid4_char_not_underscore i c Hc). exact (IH (S i) Hr).
Qed.

Lemma after_first_stored fid n :
  PyStr.contains "_" fid = false -> PyStr.after_first "_" (fid +s+ "_" +s+ n) = n.
Proof.
  induction fid as [|c r IH]; intros H; simpl; [reflexivity|].
  simpl in H. apply orb_false_elim in H as [Hc Hr]. rewrite Hc. exact (IH Hr).
Qed.

Lemma contains_stored fid n : PyStr.contains "_" (fid +s+ "_" +s+ n) = true.
Proof. induction fid as [|c r IH]; simpl; [reflexivity|]. rewrite IH. apply orb_true_r. Qed.

Lemma original_name_stored fid n :
  PyStr.contains "_" fid = false -> original_name (safe_filename fid (Some n)) = n.
Proof.
  intros H. unfold original_name, safe_filename, py_fstr.
  rewrite contains_stored. apply after_first_stored, H.
Qed.

(** The listings as system calls: a failed [stat] or [listdir] that pathlib
    does not ignore becomes an [OSError] of the handler. *)
Lemma list_user_files_eq (cwd : list string) uid (w : world) :
  list_user_files cwd uid w =
  (match (let! ex := FS.exists_ cwd (w_fs w) (PPath.join UPLOAD_DIR uid) in
          let! isd := (if ex then FS.is_dir cwd (w_fs w) (PPath.join UPLOAD_DIR uid)
                       else inr false) in
          if isd then files_of cwd (w_fs w) uid (PPath.join UPLOAD_DIR uid) else inr [])
   with inr l => Ok l | inl _ => Raise OSError end, w).
Proof.
  unfold list_user_files, bind, get_fs. cbv beta iota zeta.
  destruct (FS.exists_ _ _ _) as [e|[]]; [reflexivity| |reflexivity]. cbn.
  destruct (FS.is_dir _ _ _) as [e|[]]; [reflexivity| |reflexivity]. cbn.
  destruct (files_of _ _ _ _); reflexivity.
Qed.

Lemma list_all_files_eq (cwd : list string) (w : world) :
  list_all_files cwd w =
  (match (let! ex := FS.exists_ cwd (w_fs w) UPLOAD_DIR in
          if ex then (let! dirs := FS.iterdir cwd (w_fs w) UPLOAD_DIR in gather cwd (w_fs w) dirs)
          else inr [])
   with inr l => Ok l | inl _ => Raise OSError end, w).
Proof.
  unfold list_all_files, bind, get_fs. cbv beta iota zeta.
  destruct (FS.exists_ _ _ _) as [e|[]]; [reflexivity| |reflexivity]. cbn.
  destruct (FS.iterdir _ _ _) as [e|dirs]; [reflexivity|]. cbn.
  destruct (gather _ _ _); reflexivity.
Qed.

(** Every entry a listing builds recovers its display name from its stored name. *)
Lemma collect_names cwd fs uid fps l e :
  collect cwd fs uid fps = inr l -> In e l -> e_filename e = original_name (e_stored_filename e).
Proof.
  revert l. induction fps as [|fp r IH]; intros l H Hi; cbn in H.
  - injection H as <-. destruct Hi.
  - destruct (FS.is_file cwd fs fp) as [er|b]; [discriminate H|]. cbn in H.
    destruct (collect cwd fs uid r) as [er|es]; [discriminate H|]. cbn in H. injection H as <-.
    destruct b; [destruct Hi as [<-|Hi]; [reflexivity|]|]; exact (IH es eq_refl Hi).
Qed.

Lemma files_of_names cwd fs uid d l e :
  files_of cwd fs uid d = inr l -> In e l -> e_filename e = original_name (e_stored_filename e).
Proof.
  unfold files_of. destruct (FS.iterdir cwd fs d) as [er|fps]; [discriminate|]. apply collect_names.
Qed.

Lemma gather_names cwd fs dirs l e :
  gather cwd fs dirs = inr l -> In e l -> e_filename e = original_name (e_stored_filename e).
Proof.
  revert l. induction dirs as [|d r IH]; intros l H Hi; cbn in H.
  - injection H as <-. destruct Hi.
  - destruct (FS.is_dir cwd fs d) as [er|b]; [discriminate H|]. cbn in H.
    destruct (if b then files_of cwd fs (PPath.name d) d else inr []) as [er|es] eqn:Hes;
      [discriminate H|]. cbn in H.
    destruct (gather cwd fs r) as [er|rest]; [discriminate H|]. cbn in H. injection H as <-.
    apply in_app_or in Hi as [Hi|Hi]; [|exact (IH rest eq_refl Hi)].
    destruct b; [exact (files_of_names _ _ _ _ _ _ Hes Hi)|injection Hes as <-; destruct Hi].
Qed.

Lemma list_user_files_names cwd uid w l e :
  fst (list_user_files cwd uid w) = Ok l -> In e l ->
  e_filename e = original_name (e_stored_filename e).
Proof.
  rewrite list_user_files_eq. cbn [fst].
  destruct (FS.exists_ _ _ _) as [er|[]]; cbn; [discriminate| |intros H; injection H as <-; intros []].
  destruct (FS.is_dir _ _ _) as [er|[]]; cbn; [discriminate| |intros H; injection H as <-; intros []].
  destruct (files_of _ _ _ _) as [er|l'] eqn:E; [discriminate|].
  intros H; injection H as <-. apply (files_of_names _ _ _ _ _ _ E).
Qed.

Lemma list_all_files_names cwd w l e :
  fst (list_all_files cwd w) = Ok l -> In e l ->
  e_filename e = original_name (e_stored_filename e).
Proof.
  rewrite list_all_files_eq. cbn [fst].
  destruct (FS.exists_ _ _ _) as [er|[]]; cbn; [discriminate| |intros H; injection H as <-; intros []].
  destruct (FS.iterdir _ _ _) as [er|dirs]; cbn; [discriminate|].
  destruct (gather _ _ _) as [er|l'] eqn:E; [discriminate|].
  intros H; injection H as <-. apply (gather_names _ _ _ _ _ E).
Qed.

(** C8: with a [file_id] shaped like [str(uuid.uuid4())] (hence without an
    underscore), the stored name is [file_id], ["_"], then the original name,
    and both listings give back exactly the original name for it, also when
    the original name contains underscores itself. *)
Theorem stored_name_roundtrip fid (n : string) :
  is_uuid4 fid = true ->
  safe_filename fid (Some n) = fid +s+ "_" +s+ n /\
  original_name (safe_filename fid (Some n)) = n /\
  (forall cwd uid w l e, fst (list_user_files cwd uid w) = Ok l -> In e l ->
     e_stored_filename e = safe_filename fid (Some n) -> e_filename e = n) /\
  (forall cwd w l e, fst (list_all_files cwd w) = Ok l -> In e l ->
     e_stored_filename e = safe_filename fid (Some n) -> e_filename e = n).
Proof.
  intros Hu. apply uuid4_no_underscore in Hu.
  split; [reflexivity|]. split; [apply original_name_stored, Hu|].
  split.
  - intros cwd uid w l e Hl Hi Hs.
    rewrite (list_user_files_names cwd uid w l e Hl Hi), Hs. apply original_name_stored, Hu.
  - intros cwd w l e Hl Hi Hs.
    rewrite (list_all_files_names cwd w l e Hl Hi), Hs. apply original_name_stored, Hu.
Qed.

Lemma stored_name_roundtrip_witness :
  is_uuid4 "1b4e28ba-2fa1-41d2-883f-0016d3cca427" = true /\
  original_name (safe_filename "1b4e28ba-2fa1-41d2-883f-0016d3cca427" (Some "my_report.pdf"))
    = "my_report.pdf".
Proof.
  split; [reflexivity|].
  apply (stored_name_roundtrip "1b4e28ba-2fa1-41d2-883f-0016d3cca427" "my_report.pdf").
  reflexivity.
Defined.

Lemma collect_no_files cwd fs uid (fps : list PPath.t) :
  (forall fp, In fp fps -> FS.is_file cwd fs fp = inr false) -> collect cwd fs uid fps = inr [].
Proof.
  induction fps as [|fp r IH]; intros H; cbn; [reflexivity|].
  rewrite (H fp (or_introl eq_refl)). cbn. rewrite IH; [reflexivity|].
  intros fp' Hi. apply H. right. exact Hi.
Qed.

(** C9: in the [/srv] deployment, the partition [uploads/aaa...a] of a
    [user_id] of 256 bytes does not exist, yet [list_user_files] fails: the
    file system refuses the name with ENAMETOOLONG, which [Path.exists]
    (Python 3.11, 3.12) does not ignore, so the handler raises [OSError]
    instead of answering the empty list. *)
Lemma list_user_files_long_counterexample :
  srv_fs !! ["srv"; "uploads"; long_user_id] = None /\
  FS.lookup srv_cwd srv_fs (PPath.join UPLOAD_DIR long_user_id) = inl FS.ENAMETOOLONG /\
  list_user_files srv_cwd long_user_id srv_world = (Raise OSError, srv_world).
Proof. split; [|split]; vm_compute; reflexivity. Qed.

(** C9 (as the code has it): [list_user_files] answers the empty list and
    changes nothing when the lookup of [UPLOAD_DIR / user_id] fails with
    ENOENT or ENOTDIR (a missing component, or a file on the way), when it
    reaches something that is not a directory (nothing, or a regular file),
    or when it reaches a directory none of whose entries [is_file()] reports
    as a regular file (without an error). A lookup that fails otherwise
    (a name over [NAME_MAX] bytes, a path of [PATH_MAX] bytes or more)
    makes it raise instead. *)
Theorem list_user_files_empty (cwd : list string) uid (w : world) :
  (exists e, FS.lookup cwd (w_fs w) (PPath.join UPLOAD_DIR uid) = inl e /\ FS.ignored e = true) \/
  (exists q, FS.lookup cwd (w_fs w) (PPath.join UPLOAD_DIR uid) = inr q /\
             FS.is_dir_at (w_fs w) q = false) \/
  (exists q, FS.lookup cwd (w_fs w) (PPath.join UPLOAD_DIR uid) = inr q /\
             FS.is_dir_at (w_fs w) q = true /\
             forall c, In c (FS.children (w_fs w) q) ->
               FS.is_file cwd (w_fs w) (PPath.join (PPath.join UPLOAD_DIR uid) c) = inr false) ->
  list_user_files cwd uid w = (Ok [], w).
Proof.
  intros H. rewrite list_user_files_eq. unfold FS.exists_, FS.is_dir, FS.stat_test.
  destruct H as [[e [Hl Hi]]|[[q [Hl Hd]]|[q [Hl [Hd Hf]]]]]; rewrite Hl.
  - rewrite Hi. reflexivity.
  - unfold FS.is_dir_at in Hd.
    destruct (FS.node_at (w_fs w) q) as [[|d]|]; [discriminate Hd|reflexivity|reflexivity].
  - unfold FS.is_dir_at in Hd.
    destruct (FS.node_at (w_fs w) q) as [[|d]|] eqn:Hn; try discriminate Hd. cbn.
    unfold files_of, FS.iterdir. rewrite Hl, Hn. cbn.
    rewrite collect_no_files; [reflexivity|].
    intros fp Hi. apply in_map_iff in Hi as [c [<- Hc]]. exact (Hf c Hc).
Qed.

Lemma list_user_files_empty_witness :
  list_user_files srv_cwd "bob" srv_world = (Ok [], srv_world).
Proof.
  apply list_user_files_empty. right. left.
  exists ["srv"; "uploads"; "bob"]. split; vm_compute; reflexivity.
Defined.

Lemma rfind_none c s : PyStr.contains c s = false -> PyStr.rfind c s = None.
Proof.
  induction s as [|x r IH]; intros H; simpl; [reflexivity|].
  simpl in H. apply orb_false_elim in H as [Hx Hr]. rewrite (IH Hr), Hx. reflexivity.
Qed.

(** C10: a missing or empty filename, or one whose final component has no
    dot, has the empty extension, which is not in [ALLOWED_EXTENSIONS]; such
    an upload to main_comentado.py is refused with a 400 (the disallowed-type
    one once [user_id] is non-empty) and nothing is written. Only the last
    extension counts: [a.exe.txt] passes the check, [a.txt.exe] does not. *)
Theorem no_extension_rejected cwd send_ok fid (file : UploadFile) uid w :
  (filename file = None \/
   exists n, filename file = Some n /\ PyStr.contains "." (PPath.name (PPath.parse n)) = false) ->
  file_ext (filename file) = "" /\ ext_allowed "" = false /\
  upload_file_comentado cwd send_ok fid file uid w =
    (Raise (HTTPException 400 (if String.eqb uid "" then UserIdRequired else TypeNotAllowed)), w) /\
  ext_allowed (file_ext (Some "a.exe.txt")) = true /\
  ext_allowed (file_ext (Some "a.txt.exe")) = false.
Proof.
  intros H.
  assert (He : file_ext (filename file) = "").
  { destruct H as [H|[n [H Hn]]]; rewrite H; [reflexivity|].
    unfold file_ext. destruct (String.eqb n ""); [reflexivity|].
    unfold PPath.suffix. rewrite rfind_none by exact Hn. reflexivity. }
  split; [exact He|]. split; [reflexivity|].
  split; [|split; reflexivity].
  unfold upload_file_comentado. destruct (String.eqb uid ""); [reflexivity|].
  rewrite He. reflexivity.
Qed.

Lemma no_extension_rejected_witness :
  file_ext (Some "README") = "" /\
  upload_file_comentado srv_cwd (fun _ => true) "id1"
    {| filename := Some "README"; file_data := []; file_pos := 0 |} "alice" srv_world =
    (Raise (HTTPException 400 TypeNotAllowed), srv_world).
Proof.
  destruct (no_extension_rejected srv_cwd (fun _ => true) "id1"
              {| filename := Some "README"; file_data := []; file_pos := 0 |} "alice" srv_world)
    as [He [_ [Hu _]]].
  - right. exists "README". split; reflexivity.
  - split; [exact He|exact Hu].
Defined.

(** ** Further properties of the handlers *)

(** *** Disk lemmas *)

Lemma is_dir_at_insert_dir (fs : FS.fsys) k c :
  FS.node_at fs k = None -> FS.is_dir_at fs c = true -> FS.is_dir_at (<[k := FS.Dir]> fs) c = true.
Proof.
  intros Hk Hc. unfold FS.is_dir_at, FS.node_at in *. destruct c as [|x r]; [reflexivity|].
  destruct (decide (k = x :: r)) as [->|Hne].
  - rewrite lookup_insert_eq. reflexivity.
  - rewrite lookup_insert_ne by exact Hne. exact Hc.
Qed.

Lemma walk_insert_dir (fs : FS.fsys) k cur cs res :
  FS.node_at fs k = None -> FS.walk fs cur cs = inr res ->
  FS.walk (<[k := FS.Dir]> fs) cur cs = inr res.
Proof.
  intros Hk. revert cur. induction cs as [|c r IH]; intros cur H; simpl in *; [exact H|].
  destruct (FS.is_dir_at fs cur) eqn:Hd; [|discriminate H].
  rewrite (is_dir_at_insert_dir fs k cur Hk Hd).
  destruct (FS.NAME_MAX <? String.length c)%nat; [discriminate H|]. apply IH, H.
Qed.

Lemma lookup_insert_dir (cwd : list string) (fs : FS.fsys) k p q :
  FS.node_at fs k = None -> FS.lookup cwd fs p = inr q ->
  FS.lookup cwd (<[k := FS.Dir]> fs) p = inr q.
Proof.
  unfold FS.lookup. intros Hk H. destruct (_ <=? _)%nat; [discriminate H|].
  exact (walk_insert_dir _ _ _ _ _ Hk H).
Qed.

Lemma is_dir_at_insert_file (fs : FS.fsys) k d c :
  FS.is_dir_at fs k = false -> FS.is_dir_at (<[k := FS.File d]> fs) c = FS.is_dir_at fs c.
Proof.
  intros Hk. unfold FS.is_dir_at, FS.node_at in *. destruct c as [|x r]; [reflexivity|].
  destruct (decide (k = x :: r)) as [->|Hne].
  - rewrite lookup_insert_eq. rewrite Hk. reflexivity.
  - rewrite lookup_insert_ne by exact Hne. reflexivity.
Qed.

(** Writing a regular file where no directory was keeps every successful
    path walk. *)
Lemma walk_insert_file (fs : FS.fsys) k d cur cs res :
  FS.is_dir_at fs k = false -> FS.walk fs cur cs = inr res ->
  FS.walk (<[k := FS.File d]> fs) cur cs = inr res.
Proof.
  intros Hk. revert cur. induction cs as [|c r IH]; intros cur H; simpl in *; [exact H|].
  rewrite (is_dir_at_insert_file fs k d cur Hk).
  destruct (FS.is_dir_at fs cur); [|discriminate H].
  destruct (FS.NAME_MAX <? String.length c)%nat; [discriminate H|]. apply IH, H.
Qed.

Lemma lookup_insert_file (cwd : list string) (fs : FS.fsys) k d p q :
  FS.is_dir_at fs k = false -> FS.lookup cwd fs p = inr q ->
  FS.lookup cwd (<[k := FS.File d]> fs) p = inr q.
Proof.
  unfold FS.lookup. intros Hk H. destruct (_ <=? _)%nat; [discriminate H|].
  exact (walk_insert_file _ _ _ _ _ _ Hk H).
Qed.

Lemma walk_app (fs : FS.fsys) cur a b :
  FS.walk fs cur (a ++ b)%list = (let! c := FS.walk fs cur a in FS.walk fs c b).
Proof.
  revert cur. induction a as [|x r IH]; intros cur; simpl; [reflexivity|].
  destruct (FS.is_dir_at fs cur); [|reflexivity].
  destruct (FS.NAME_MAX <? String.length x)%nat; [reflexivity|apply IH].
Qed.


(** *** Registry *)

Lemma list_remove_app (ws : conn) (l1 l2 : list conn) :
  ~ In ws l1 -> list_remove ws (l1 ++ ws :: l2)%list = Some (l1 ++ l2)%list.
Proof.
  induction l1 as [|y r IH]; intros Hn; simpl.
  - rewrite Nat.eqb_refl. reflexivity.
  - destruct (Nat.eqb_spec y ws) as [->|Hne]; [exfalso; apply Hn; left; reflexivity|].
    rewrite IH; [reflexivity|]. intros Hi. apply Hn. right. exact Hi.
Qed.

(** [disconnect] of a registered socket removes its first occurrence from
    [active_connections], keeps the order of the others, and returns normally. *)
Theorem disconnect_removes_first (ws : conn) (l1 l2 : list conn) (w : world) :
  w_conns w = (l1 ++ ws :: l2)%list -> ~ In ws l1 ->
  disconnect ws w = (Ok tt, {| w_fs := w_fs w; w_conns := (l1 ++ l2)%list; w_sent := w_sent w |}).
Proof.
  intros Hw Hn. unfold disconnect, bind, get_conns. simpl.
  rewrite Hw, list_remove_app by exact Hn. reflexivity.
Qed.

Lemma disconnect_removes_first_witness :
  disconnect 2 {| w_fs := ∅; w_conns := [1; 2; 3; 2]%nat; w_sent := [] |} =
  (Ok tt, {| w_fs := ∅; w_conns := [1; 3; 2]%nat; w_sent := [] |}).
Proof.
  apply (disconnect_removes_first 2 [1]%nat [3; 2]%nat
           {| w_fs := ∅; w_conns := [1; 2; 3; 2]%nat; w_sent := [] |}).
  - reflexivity.
  - simpl. intros [H|[]]. discriminate H.
Defined.

(** A websocket session that opens and then disconnects leaves the world as
    it found it, provided the socket was not registered before. *)
Theorem connect_disconnect_roundtrip (ws : conn) (w : world) :
  ~ In ws (w_conns w) -> bind (websocket_opened ws) (fun _ => websocket_disconnected ws) w = (Ok tt, w).
Proof.
  intros Hn. unfold websocket_opened, websocket_disconnected, connect, disconnect,
    bind, get_conns, set_conns. simpl.
  rewrite <- (app_nil_r (w_conns w)) at 2.
  rewrite list_remove_app by exact Hn. rewrite app_nil_r. destruct w. reflexivity.
Qed.

Lemma connect_disconnect_roundtrip_witness :
  bind (websocket_opened 5) (fun _ => websocket_disconnected 5)
    {| w_fs := ∅; w_conns := [1; 2]%nat; w_sent := [] |} =
  (Ok tt, {| w_fs := ∅; w_conns := [1; 2]%nat; w_sent := [] |}).
Proof.
  apply connect_disconnect_roundtrip. simpl. intros [H|[H|[]]]; discriminate H.
Defined.

(** *** mkdir *)

(** [mkdir(exist_ok=True)] is idempotent: once it has succeeded, running it
    again on the same path succeeds and changes nothing. *)
Theorem mkdir_exist_ok_idempotent cwd (p : PPath.t) (w w1 : world) :
  mkdir_exist_ok cwd p w = (Ok tt, w1) -> mkdir_exist_ok cwd p w1 = (Ok tt, w1).
Proof.
  unfold mkdir_exist_ok, bind, get_fs, set_fs, ret, raise, FS.os_path. simpl.
  destruct (FS.lookup cwd (w_fs w) p) as [e|q] eqn:Hp; [discriminate|].
  destruct (FS.node_at (w_fs w) q) as [[|d]|] eqn:Hq; intros H; try discriminate H.
  - injection H as <-. rewrite Hp, Hq. reflexivity.
  - injection H as <-. simpl. rewrite (lookup_insert_dir _ _ _ _ _ Hq Hp).
    destruct q as [|x r]; [discriminate Hq|]. simpl. rewrite lookup_insert_eq. reflexivity.
Qed.

Lemma mkdir_exist_ok_idempotent_witness :
  let w1 := snd (mkdir_exist_ok srv_cwd (PPath.join UPLOAD_DIR "alice") srv_world) in
  mkdir_exist_ok srv_cwd (PPath.join UPLOAD_DIR "alice") w1 = (Ok tt, w1).
Proof.
  intros w1. apply (mkdir_exist_ok_idempotent srv_cwd (PPath.join UPLOAD_DIR "alice") srv_world).
  vm_compute. reflexivity.
Defined.

(** *** Stored names *)

Lemma stored_name_inj fid1 fid2 n1 n2 :
  PyStr.contains "_" fid1 = false -> PyStr.contains "_" fid2 = false ->
  fid1 +s+ "_" +s+ n1 = fid2 +s+ "_" +s+ n2 -> fid1 = fid2 /\ n1 = n2.
Proof.
  revert fid2. induction fid1 as [|c r IH]; intros [|c' r'] H1 H2 H; simpl in *.
  - injection H as H. cbv [String.append] in H. subst. split; reflexivity.
  - injection H as Hc _. subst c'. discriminate H2.
  - injection H as Hc _. subst c. discriminate H1.
  - injection H as <- Hr. apply orb_false_elim in H1 as [_ H1].
    apply orb_false_elim in H2 as [_ H2].
    destruct (IH r' H1 H2 Hr) as [-> ->]. split; reflexivity.
Qed.

(** Two uploads that draw different uuid4 ids never get the same stored
    name, whatever their original file names (also a missing one). *)
Theorem stored_names_distinct fid1 fid2 (f1 f2 : option string) :
  is_uuid4 fid1 = true -> is_uuid4 fid2 = true -> fid1 <> fid2 ->
  safe_filename fid1 f1 <> safe_filename fid2 f2.
Proof.
  intros H1 H2 Hne Heq. apply uuid4_no_underscore in H1, H2.
  unfold safe_filename in Heq. destruct (stored_name_inj _ _ _ _ H1 H2 Heq) as [E _].
  exact (Hne E).
Qed.

Lemma stored_names_distinct_witness :
  safe_filename sample_uuid4 (Some "a.pdf") <>
  safe_filename "9f0c2b1e-77aa-4c1d-9e2f-3b4a5c6d7e8f" (Some "a.pdf").
Proof.
  apply stored_names_distinct; [reflexivity | reflexivity | discriminate].
Defined.

(** *** What a successful or failed upload leaves behind *)

Lemma mkdir_ok_inv (cwd : list string) p (w w1 : world) :
  mkdir_exist_ok cwd p w = (Ok tt, w1) ->
  exists q, FS.lookup cwd (w_fs w) p = inr q /\
            (w_fs w1 = w_fs w \/
             (FS.node_at (w_fs w) q = None /\ w_fs w1 = <[q := FS.Dir]> (w_fs w))) /\
            FS.lookup cwd (w_fs w1) p = inr q /\ FS.is_dir_at (w_fs w1) q = true /\
            w_conns w1 = w_conns w /\ w_sent w1 = w_sent w.
Proof.
  unfold mkdir_exist_ok, bind, get_fs, set_fs, ret, raise, FS.os_path. simpl.
  destruct (FS.lookup cwd (w_fs w) p) as [e|q] eqn:Hp; [discriminate|].
  destruct (FS.node_at (w_fs w) q) as [[|d]|] eqn:Hq; intros H; try discriminate H.
  - injection H as <-. exists q. unfold FS.is_dir_at. rewrite Hq.
    split; [reflexivity|]. split; [left; reflexivity|]. auto.
  - injection H as <-. exists q. simpl. split; [reflexivity|]. split; [right; auto|].
    rewrite (lookup_insert_dir _ _ _ _ _ Hq Hp). split; [reflexivity|].
    destruct q as [|x r]; [discriminate Hq|].
    unfold FS.is_dir_at, FS.node_at. rewrite lookup_insert_eq. auto.
Qed.

Lemma write_ok_inv (cwd : list string) p bytes (w w1 : world) :
  write_file cwd p bytes w = (Ok tt, w1) ->
  exists q, FS.lookup cwd (w_fs w) p = inr q /\ FS.is_dir_at (w_fs w) q = false /\
            w_fs w1 = <[q := FS.File bytes]> (w_fs w) /\
            w_conns w1 = w_conns w /\ w_sent w1 = w_sent w.
Proof.
  unfold write_file, bind, get_fs, set_fs, ret, raise, FS.os_path. simpl.
  destruct (FS.lookup cwd (w_fs w) p) as [e|q] eqn:Hp; [discriminate|].
  intros Hr. exists q. unfold FS.is_dir_at.
  destruct (FS.node_at (w_fs w) q) as [[|d]|] eqn:Hq; try discriminate Hr;
    injection Hr; intros <-; simpl; auto.
Qed.

Lemma mkdir_sent cwd p (w : world) : w_sent (snd (mkdir_exist_ok cwd p w)) = w_sent w.
Proof.
  unfold mkdir_exist_ok, bind, get_fs, set_fs, ret, raise. simpl.
  destruct (FS.os_path cwd (w_fs w) p); [|reflexivity].
  destruct (FS.node_at (w_fs w) _) as [[|]|]; reflexivity.
Qed.

Lemma write_sent cwd p bytes (w : world) : w_sent (snd (write_file cwd p bytes w)) = w_sent w.
Proof.
  unfold write_file, bind, get_fs, set_fs, ret, raise. simpl.
  destruct (FS.os_path cwd (w_fs w) p); [|reflexivity].
  destruct (FS.node_at (w_fs w) _) as [[|]|]; reflexivity.
Qed.

(** The tail of [upload_file] (mkdir, write, broadcast) when it succeeds:
    the directory is found (and created when missing), then the file is
    written where no directory was. *)
Lemma upload_tail_ok (cwd : list string) send_ok user_dir file_path bytes (r r' : upload_resp)
  (w w' : world) :
  (let* _ := mkdir_exist_ok cwd user_dir in
   let* _ := write_file cwd file_path bytes in
   let* _ := broadcast send_ok new_file_event in
   ret r) w = (Ok r', w') ->
  r' = r /\
  exists fs1 qd qf,
    FS.lookup cwd (w_fs w) user_dir = inr qd /\
    (fs1 = w_fs w \/ (FS.node_at (w_fs w) qd = None /\ fs1 = <[qd := FS.Dir]> (w_fs w))) /\
    FS.lookup cwd fs1 user_dir = inr qd /\ FS.is_dir_at fs1 qd = true /\
    FS.lookup cwd fs1 file_path = inr qf /\ FS.is_dir_at fs1 qf = false /\
    w_fs w' = <[qf := FS.File bytes]> fs1.
Proof.
  unfold bind at 1. destruct (mkdir_exist_ok cwd user_dir w) as [[[]|e] w1] eqn:Hm;
    [|discriminate].
  apply mkdir_ok_inv in Hm as [qd [H0 [Hfs [Hd [Hdd _]]]]].
  unfold bind at 1. destruct (write_file cwd file_path bytes w1) as [[[]|e] w2] eqn:Hw;
    [|discriminate].
  apply write_ok_inv in Hw as [qf [Hf [Hfd [Hfs2 _]]]].
  unfold bind at 1. rewrite broadcast_snapshot. cbv beta iota. unfold ret.
  intros H. injection H as <- <-.
  split; [reflexivity|]. exists (w_fs w1), qd, qf. cbn [w_fs]. auto 10.
Qed.

(** The tail of [upload_file] when it fails: no websocket has been sent to. *)
Lemma upload_tail_raise cwd send_ok user_dir file_path bytes (r : upload_resp) e (w w' : world) :
  (let* _ := mkdir_exist_ok cwd user_dir in
   let* _ := write_file cwd file_path bytes in
   let* _ := broadcast send_ok new_file_event in
   ret r) w = (Raise e, w') -> w_sent w' = w_sent w.
Proof.
  pose proof (mkdir_sent cwd user_dir w) as Hm0.
  unfold bind at 1. destruct (mkdir_exist_ok cwd user_dir w) as [[[]|e1] w1] eqn:Hm;
    simpl in Hm0; [|intros H; injection H as _ <-; exact Hm0].
  pose proof (write_sent cwd file_path bytes w1) as Hw0.
  unfold bind at 1. destruct (write_file cwd file_path bytes w1) as [[[]|e2] w2] eqn:Hw;
    simpl in Hw0; [|intros H; injection H as _ <-; congruence].
  unfold bind at 1. rewrite broadcast_snapshot. cbv beta iota. unfold ret.
  discriminate.
Qed.

Lemma serve_written (cwd : list string) (fs1 : FS.fsys) (fp : PPath.t) (qf : list string)
  (bytes : list Byte.byte) :
  FS.lookup cwd fs1 fp = inr qf -> FS.is_dir_at fs1 qf = false ->
  serve cwd (<[qf := FS.File bytes]> fs1) fp = Some bytes /\
  FS.exists_ cwd (<[qf := FS.File bytes]> fs1) fp = inr true.
Proof.
  intros Hp Hd. unfold serve, FS.exists_, FS.stat_test, FS.os_path.
  rewrite (lookup_insert_file _ _ _ _ _ _ Hd Hp).
  destruct qf as [|x r]; [discriminate Hd|]. simpl. rewrite lookup_insert_eq. auto.
Qed.

(** *** Errors of [upload_file] *)

(** Every [HTTPException] of either [upload_file] is raised before anything
    is done: no directory, no file, no websocket message. *)
Theorem upload_http_error_untouched cwd send_ok fid (file : UploadFile) uid (w : world) c d :
  (fst (upload_file_main cwd send_ok fid file uid w) = Raise (HTTPException c d) ->
   upload_file_main cwd send_ok fid file uid w = (Raise (HTTPException c d), w)) /\
  (fst (upload_file_comentado cwd send_ok fid file uid w) = Raise (HTTPException c d) ->
   upload_file_comentado cwd send_ok fid file uid w = (Raise (HTTPException c d), w)).
Proof.
  split; intros H.
  - unfold upload_file_main in *. cbv zeta in *.
    destruct (String.eqb uid "").
    + cbv [raise fst] in H. injection H as <- <-. reflexivity.
    + apply only_upload_tail in H. discriminate H.
  - unfold upload_file_comentado in *. cbv zeta in *.
    destruct (String.eqb uid "").
    { cbv [raise fst] in H. injection H as <- <-. reflexivity. }
    destruct (negb (ext_allowed (file_ext (filename file)))).
    { cbv [raise fst] in H. injection H as <- <-. reflexivity. }
    destruct (MAX_FILE_SIZE <? N.of_nat (length (file_data file)))%N.
    { cbv [raise fst] in H. injection H as <- <-. reflexivity. }
    apply only_upload_tail in H. discriminate H.
Qed.

(** A failed upload, whatever the failure (a refused request, or an
    [OSError] of [mkdir] or [open]), sends nothing to any websocket and
    leaves the registry as it was. *)
Theorem upload_failure_sends_nothing cwd send_ok fid (file : UploadFile) uid (w w' : world) e :
  upload_file_main cwd send_ok fid file uid w = (Raise e, w') \/
  upload_file_comentado cwd send_ok fid file uid w = (Raise e, w') ->
  w_sent w' = w_sent w /\ w_conns w' = w_conns w.
Proof.
  intros H. split.
  - destruct H as [H|H].
    + unfold upload_file_main in H. cbv zeta in H.
      destruct (String.eqb uid "").
      * cbv [raise] in H. injection H as _ <-. reflexivity.
      * exact (upload_tail_raise _ _ _ _ _ _ _ _ _ H).
    + unfold upload_file_comentado in H. cbv zeta in H.
      destruct (String.eqb uid "").
      { cbv [raise] in H. injection H as _ <-. reflexivity. }
      destruct (negb (ext_allowed (file_ext (filename file)))).
      { cbv [raise] in H. injection H as _ <-. reflexivity. }
      destruct (MAX_FILE_SIZE <? N.of_nat (length (file_data file)))%N.
      { cbv [raise] in H. injection H as _ <-. reflexivity. }
      exact (upload_tail_raise _ _ _ _ _ _ _ _ _ H).
  - destruct H as [H|H].
    + pose proof (keeps_upload_main cwd send_ok fid file uid w) as K. rewrite H in K. exact K.
    + pose proof (keeps_upload_comentado cwd send_ok fid file uid w) as K. rewrite H in K. exact K.
Qed.

Lemma upload_failure_sends_nothing_witness :
  w_sent (snd (upload_file_main srv_cwd (fun _ => true) sample_uuid4 pdf_upload "alice" bare_world))
    = w_sent bare_world /\
  w_conns (snd (upload_file_main srv_cwd (fun _ => true) sample_uuid4 pdf_upload "alice" bare_world))
    = w_conns bare_world.
Proof.
  apply (upload_failure_sends_nothing srv_cwd (fun _ => true) sample_uuid4 pdf_upload "alice"
           bare_world _ OSError).
  left. vm_compute. reflexivity.
Defined.

(** *** A successful upload *)

Lemma upload_tail_stores cwd send_ok uid safe bytes (r r' : upload_resp) (w w' : world) :
  (let* _ := mkdir_exist_ok cwd (PPath.join UPLOAD_DIR uid) in
   let* _ := write_file cwd (PPath.join (PPath.join UPLOAD_DIR uid) safe) bytes in
   let* _ := broadcast send_ok new_file_event in
   ret r) w = (Ok r', w') ->
  r' = r /\
  get_file_main cwd uid safe w' = (Ok (PPath.join (PPath.join UPLOAD_DIR uid) safe), w') /\
  serve cwd (w_fs w') (PPath.join (PPath.join UPLOAD_DIR uid) safe) = Some bytes.
Proof.
  intros H. apply upload_tail_ok in H as [-> [fs1 [qd [qf [_ [_ [_ [_ [Hf [Hfd Hw]]]]]]]]]].
  destruct (serve_written cwd fs1 _ qf bytes Hf Hfd) as [Hsv He].
  rewrite <- Hw in Hsv, He.
  split; [reflexivity|]. split; [|exact Hsv].
  unfold get_file_main, bind, get_fs. cbv beta iota zeta. rewrite He. reflexivity.
Qed.

(** A successful upload of main.py stores the bytes left in the spooled file
    under [UPLOAD_DIR / user_id / safe_filename], answers the URL of that
    name, and [get_file] then serves those bytes. *)
Theorem upload_main_success cwd send_ok fid (file : UploadFile) uid (w w' : world) r :
  upload_file_main cwd send_ok fid file uid w = (Ok r, w') ->
  uid <> "" /\
  r = {| r_file_id := fid; r_filename := filename file; r_user_id := uid;
         r_url := file_url uid (safe_filename fid (filename file)) |} /\
  get_file_main cwd uid (safe_filename fid (filename file)) w' =
    (Ok (PPath.join (PPath.join UPLOAD_DIR uid) (safe_filename fid (filename file))), w') /\
  serve cwd (w_fs w') (PPath.join (PPath.join UPLOAD_DIR uid) (safe_filename fid (filename file))) =
    Some (read_rest file (file_pos file)).
Proof.
  unfold upload_file_main. cbv zeta. intros H.
  destruct (String.eqb_spec uid "") as [_|Hu].
  - cbv [raise] in H. discriminate H.
  - apply upload_tail_stores in H as [-> H]. split; [exact Hu|]. split; [reflexivity|]. exact H.
Qed.

Lemma upload_main_success_witness :
  let w' := snd (upload_file_main srv_cwd (fun _ => true) sample_uuid4 pdf_upload "alice"
                   listening_world) in
  serve srv_cwd (w_fs w')
    (PPath.join (PPath.join UPLOAD_DIR "alice") (safe_filename sample_uuid4 (Some "report.pdf")))
  = Some [Byte.x25; Byte.x50].
Proof.
  intros w'.
  destruct (upload_main_success srv_cwd (fun _ => true) sample_uuid4 pdf_upload "alice"
              listening_world w'
              {| r_file_id := sample_uuid4; r_filename := Some "report.pdf"; r_user_id := "alice";
                 r_url := file_url "alice" (safe_filename sample_uuid4 (Some "report.pdf")) |})
    as [_ [_ [_ Hs]]].
  - vm_compute. reflexivity.
  - exact Hs.
Defined.

(** A successful upload of main_comentado.py has passed its checks (a
    non-empty [user_id], an allowed extension, at most [MAX_FILE_SIZE]
    bytes), stores the whole payload under [UPLOAD_DIR / user_id /
    safe_filename], answers the URL of that name, and [get_file] then serves
    those bytes. *)
Theorem upload_comentado_success cwd send_ok fid (file : UploadFile) uid (w w' : world) r :
  upload_file_comentado cwd send_ok fid file uid w = (Ok r, w') ->
  uid <> "" /\ ext_allowed (file_ext (filename file)) = true /\
  (N.of_nat (length (file_data file)) <= MAX_FILE_SIZE)%N /\
  r = {| r_file_id := fid; r_filename := filename file; r_user_id := uid;
         r_url := file_url uid (safe_filename fid (filename file)) |} /\
  get_file_main cwd uid (safe_filename fid (filename file)) w' =
    (Ok (PPath.join (PPath.join UPLOAD_DIR uid) (safe_filename fid (filename file))), w') /\
  serve cwd (w_fs w') (PPath.join (PPath.join UPLOAD_DIR uid) (safe_filename fid (filename file))) =
    Some (file_data file).
Proof.
  unfold upload_file_comentado. cbv zeta. intros H.
  destruct (String.eqb_spec uid "") as [_|Hu].
  { cbv [raise] in H. discriminate H. }
  destruct (ext_allowed (file_ext (filename file))) eqn:He.
  2:{ cbv [raise negb] in H. discriminate H. }
  destruct (MAX_FILE_SIZE <? N.of_nat (length (file_data file)))%N eqn:Hs.
  { cbv [raise negb] in H. discriminate H. }
  cbv [negb] in H. apply N.ltb_ge in Hs.
  apply upload_tail_stores in H as [-> H].
  split; [exact Hu|]. split; [reflexivity|]. split; [exact Hs|]. split; [reflexivity|].
  exact H.
Qed.

Lemma upload_comentado_success_witness :
  let w' := snd (upload_file_comentado srv_cwd (fun _ => true) sample_uuid4 pdf_upload "alice"
                   listening_world) in
  serve srv_cwd (w_fs w')
    (PPath.join (PPath.join UPLOAD_DIR "alice") (safe_filename sample_uuid4 (Some "report.pdf")))
  = Some [Byte.x25; Byte.x50].
Proof.
  intros w'.
  destruct (upload_comentado_success srv_cwd (fun _ => true) sample_uuid4 pdf_upload "alice"
              listening_world w'
              {| r_file_id := sample_uuid4; r_filename := Some "report.pdf"; r_user_id := "alice";
                 r_url := file_url "alice" (safe_filename sample_uuid4 (Some "report.pdf")) |})
    as [_ [_ [_ [_ [_ Hs]]]]].
  - vm_compute. reflexivity.
  - exact Hs.
Defined.

(** *** Plain path segments *)




Lemma split_on_absent c s : PyStr.contains c s = false -> PyStr.split_on c s = [s].
Proof.
  induction s as [|x r IH]; intros H; simpl; [reflexivity|].
  simpl in H. apply orb_false_elim in H as [Hx Hr]. rewrite Hx, (IH Hr). reflexivity.
Qed.

Lemma plain_name_spec s :
  plain_name s = true ->
  s <> "" /\ PyStr.contains "/" s = false /\ s <> "." /\ s <> "..".
Proof.
  unfold plain_name. intros H.
  repeat match type of H with
         | _ && _ = true => apply andb_prop in H as [H ?]
         end.
  repeat match goal with
         | Hn : negb _ = true |- _ => apply negb_true_iff in Hn
         end.
  repeat split; try (apply String.eqb_neq; assumption); assumption.
Qed.

(** [Path(s)] of a plain segment is the relative path with the one part [s]. *)
Lemma parse_plain s : plain_name s = true -> PPath.parse s = PPath.mk false [s].
Proof.
  intros H. apply plain_name_spec in H as [H1 [H2 [H3 _]]].
  unfold PPath.parse. rewrite (split_on_absent _ _ H2).
  assert (Hs : PyStr.startswith s "/" = false).
  { destruct s as [|x r]; [reflexivity|]. simpl in H2.
    apply orb_false_elim in H2 as [Hx _]. unfold PyStr.startswith. cbn [String.prefix].
    destruct (ascii_dec "/" x) as [<-|]; [discriminate Hx|reflexivity]. }
  rewrite Hs. apply String.eqb_neq in H1, H3. cbn. rewrite H1, H3. reflexivity.
Qed.

Lemma join_plain (p : PPath.t) s :
  plain_name s = true -> PPath.join p s = PPath.mk (PPath.p_abs p) (PPath.p_parts p ++ [s])%list.
Proof. intros H. unfold PPath.join. rewrite (parse_plain s H). reflexivity. Qed.

Lemma step_plain cur s : plain_name s = true -> PPath.step cur s = (cur ++ [s])%list.
Proof.
  intros H. apply plain_name_spec in H as [H1 [_ [H3 H4]]].
  apply String.eqb_neq in H1, H3, H4. unfold PPath.step. rewrite H4, H3, H1. reflexivity.
Qed.

Lemma last_part_app l x : PPath.last_part (l ++ [x])%list = x.
Proof.
  induction l as [|y r IH]; [reflexivity|].
  destruct r as [|z r']; [reflexivity|]. exact IH.
Qed.

Lemma name_join_plain (p : PPath.t) s : plain_name s = true -> PPath.name (PPath.join p s) = s.
Proof. intros H. rewrite (join_plain p s H). apply last_part_app. Qed.

Lemma walk_snoc_plain (fs : FS.fsys) cur cs s q :
  plain_name s = true -> FS.walk fs cur (cs ++ [s])%list = inr q ->
  exists p, FS.walk fs cur cs = inr p /\ FS.is_dir_at fs p = true /\
            (String.length s <= FS.NAME_MAX)%nat /\ q = (p ++ [s])%list.
Proof.
  intros Hs H. rewrite walk_app in H.
  destruct (FS.walk fs cur cs) as [e|p]; [discriminate H|]. cbn [sbind FS.walk] in H.
  destruct (FS.is_dir_at fs p) eqn:Hd; [|discriminate H].
  destruct (FS.NAME_MAX <? String.length s)%nat eqn:Hn; [discriminate H|].
  injection H as <-. apply Nat.ltb_ge in Hn.
  exists p. rewrite step_plain by exact Hs. auto.
Qed.

Lemma user_dir_parts uid :
  plain_name uid = true -> PPath.join UPLOAD_DIR uid = PPath.mk false ["uploads"; uid].
Proof. intros Hu. rewrite (join_plain _ uid Hu). reflexivity. Qed.


Lemma lookup_upload_dir (cwd : list string) (fs : FS.fsys) :
  FS.lookup cwd fs UPLOAD_DIR = FS.walk fs cwd ["uploads"].
Proof. reflexivity. Qed.

Lemma lookup_user_dir (cwd : list string) (fs : FS.fsys) uid q :
  plain_name uid = true ->
  FS.lookup cwd fs (PPath.join UPLOAD_DIR uid) = inr q -> FS.walk fs cwd ["uploads"; uid] = inr q.
Proof.
  intros Hu. rewrite (user_dir_parts uid Hu). unfold FS.lookup.
  destruct (_ <=? _)%nat; [discriminate|]. intros H. exact H.
Qed.




(** *** Directory listings *)

Lemma in_omap_intro {A B} (f : A -> option B) (l : list A) x y :
  In x l -> f x = Some y -> In y (omap f l).
Proof.
  induction l as [|z r IH]; intros Hi Hf; [destruct Hi|]. simpl.
  destruct Hi as [->|Hi].
  - rewrite Hf. left. reflexivity.
  - destruct (f z); [right|]; exact (IH Hi Hf).
Qed.

Lemma children_intro (fs : FS.fsys) q c nd :
  fs !! (q ++ [c])%list = Some nd -> In c (FS.children fs q).
Proof.
  intros H. unfold FS.children.
  apply (in_omap_intro _ _ ((q ++ [c])%list, nd)).
  - apply list_elem_of_In, elem_of_map_to_list. exact H.
  - destruct (q ++ [c])%list as [|k0 kr] eqn:E; [destruct q; discriminate E|].
    rewrite <- E. rewrite bool_decide_eq_true_2 by apply removelast_last.
    rewrite last_part_app. reflexivity.
Qed.




Lemma dir_lookup (fs : FS.fsys) q c :
  FS.is_dir_at fs (q ++ [c])%list = true -> fs !! (q ++ [c])%list = Some FS.Dir.
Proof.
  unfold FS.is_dir_at, FS.node_at. destruct (q ++ [c])%list as [|k0 kr] eqn:E;
    [destruct q; discriminate E|].
  destruct (fs !! (k0 :: kr)) as [[|]|]; congruence.
Qed.




(** The outer loop of [list_all_files] keeps the files of every directory it visits. *)
Lemma gather_incl (cwd : list string) (fs : FS.fsys) dirs l d es :
  gather cwd fs dirs = inr l -> In d dirs -> FS.is_dir cwd fs d = inr true ->
  files_of cwd fs (PPath.name d) d = inr es -> incl es l.
Proof.
  revert l. induction dirs as [|d' r IH]; intros l Hg Hin Hd Hf; [destruct Hin|].
  cbn [gather] in Hg.
  destruct (FS.is_dir cwd fs d') as [e|isd] eqn:Hd'; [discriminate Hg|]. cbn [sbind] in Hg.
  destruct (if isd then files_of cwd fs (PPath.name d') d' else inr []) as [e|es'] eqn:Hes;
    [discriminate Hg|]. cbn [sbind] in Hg.
  destruct (gather cwd fs r) as [e|rest] eqn:Hr; [discriminate Hg|]. cbn [sbind] in Hg.
  injection Hg as <-.
  destruct Hin as [<-|Hin].
  - rewrite Hd in Hd'. injection Hd' as <-. rewrite Hf in Hes. cbv iota in Hes.
    injection Hes as <-. apply incl_appl, incl_refl.
  - apply incl_appr. exact (IH rest eq_refl Hin Hd Hf).
Qed.





(** For a plain [user_id], every entry of [GET /files/{user_id}] is also an
    entry of [GET /files/all]. *)
Theorem user_files_in_all_files cwd uid (w : world) l1 l2 :
  plain_name uid = true ->
  fst (list_user_files cwd uid w) = Ok l1 -> fst (list_all_files cwd w) = Ok l2 ->
  incl l1 l2.
Proof.
  intros Hp H1 H2 e He.
  rewrite list_user_files_eq in H1. cbn [fst] in H1.
  unfold FS.exists_, FS.is_dir, FS.stat_test in H1.
  destruct (FS.lookup cwd (w_fs w) (PPath.join UPLOAD_DIR uid)) as [er|qd] eqn:Ed.
  { destruct (FS.ignored er); cbn [sbind] in H1;
      [injection H1 as <-; destruct He|discriminate H1]. }
  destruct (FS.node_at (w_fs w) qd) as [[|d]|] eqn:En; cbn [sbind] in H1;
    [|injection H1 as <-; destruct He|injection H1 as <-; destruct He].
  destruct (files_of cwd (w_fs w) uid (PPath.join UPLOAD_DIR uid)) as [er|es] eqn:Ef;
    [discriminate H1|]. injection H1 as <-.
  pose proof (lookup_user_dir _ _ _ _ Hp Ed) as Hw.
  change ["uploads"; uid] with (["uploads"] ++ [uid])%list in Hw.
  destruct (walk_snoc_plain _ _ _ _ _ Hp Hw) as [qu [Hu [Hud [_ Hq]]]]. subst qd.
  rewrite list_all_files_eq in H2. cbn [fst] in H2.
  unfold FS.exists_, FS.stat_test in H2. rewrite lookup_upload_dir, Hu in H2.
  unfold FS.is_dir_at in Hud.
  destruct (FS.node_at (w_fs w) qu) as [[|]|] eqn:Enu; try discriminate Hud.
  cbn [sbind] in H2.
  unfold FS.iterdir in H2. rewrite lookup_upload_dir, Hu, Enu in H2. cbn [sbind] in H2.
  destruct (gather cwd (w_fs w) (map (PPath.join UPLOAD_DIR) (FS.children (w_fs w) qu)))
    as [er|l] eqn:Eg; [discriminate H2|]. injection H2 as <-.
  refine (gather_incl cwd (w_fs w) _ _ (PPath.join UPLOAD_DIR uid) es Eg _ _ _ e He).
  - apply in_map. apply (children_intro _ _ _ FS.Dir). apply dir_lookup.
    unfold FS.is_dir_at. rewrite En. reflexivity.
  - unfold FS.is_dir, FS.stat_test. rewrite Ed, En. reflexivity.
  - rewrite name_join_plain by exact Hp. exact Ef.
Qed.

Lemma user_files_in_all_files_witness :
  let w' := snd (upload_file_main srv_cwd (fun _ => true) sample_uuid4 pdf_upload "alice"
                   srv_world) in
  incl [mk_entry "alice" (safe_filename sample_uuid4 (Some "report.pdf"))]
       [mk_entry "alice" (safe_filename sample_uuid4 (Some "report.pdf"))].
Proof.
  intros w'.
  apply (user_files_in_all_files srv_cwd "alice" w').
  - reflexivity.
  - vm_compute. reflexivity.
  - vm_compute. reflexivity.
Defined.

(** *** Disconnect, then broadcast *)

Lemma list_remove_incl x l l' y : list_remove x l = Some l' -> In y l' -> In y l.
Proof.
  revert l'. induction l as [|z r IH]; intros l' H Hi; simpl in H; [discriminate H|].
  destruct (Nat.eqb z x); [injection H as <-; right; exact Hi|].
  destruct (list_remove x r) as [r'|]; [|discriminate H].
  injection H as <-. destruct Hi as [->|Hi]; [left; reflexivity|right; exact (IH r' eq_refl Hi)].
Qed.

Lemma other_task_avoids t ws (w : world) :
  ~ In ws (w_conns w) -> t <> Opens ws ->
  ~ In ws (w_conns (snd (other_task t w))) /\ w_sent (snd (other_task t w)) = w_sent w.
Proof.
  intros Hn Ht. unfold other_task, try_except. destruct t as [|x|x]; cbn.
  - auto.
  - split; [|reflexivity]. intros Hi. apply in_app_or in Hi as [Hi|[<-|[]]]; [exact (Hn Hi)|].
    apply Ht. reflexivity.
  - destruct (list_remove x (w_conns w)) as [l'|] eqn:E; cbn; [|auto].
    split; [|reflexivity]. intros Hi. exact (Hn (list_remove_incl _ _ _ _ E Hi)).
Qed.

(** While the socket stays unregistered, the loop sends nothing to it. *)
Lemma broadcast_iter_avoids send_ok ws f i msg sched (w : world) :
  ~ In ws (w_conns w) -> ~ In (Opens ws) sched ->
  exists new, w_sent (snd (broadcast_iter send_ok f i msg sched w)) = (w_sent w ++ new)%list /\
    forall c m b, In (c, m, b) new -> c <> ws.
Proof.
  revert i sched w. induction f as [|f IH]; intros i sched w Hn Hs.
  - exists []. rewrite app_nil_r. split; [reflexivity|intros ? ? ? []].
  - rewrite broadcast_iter_S. destruct (w_conns w !! i) as [c|] eqn:E.
    2:{ exists []. rewrite app_nil_r. split; [reflexivity|intros ? ? ? []]. }
    assert (Hc : c <> ws).
    { intros ->. apply Hn. apply list_elem_of_In. exact (list_elem_of_lookup_2 _ _ _ E). }
    assert (Ht : hd Idle sched <> Opens ws /\ ~ In (Opens ws) (tl sched)).
    { destruct sched as [|t r]; simpl in *; [split; [discriminate|intros []]|].
      split; [intros ->; apply Hs; left; reflexivity|intros Hi; apply Hs; right; exact Hi]. }
    destruct Ht as [Ht1 Ht2].
    destruct (other_task_avoids (hd Idle sched) ws
                {| w_fs := w_fs w; w_conns := w_conns w; w_sent := w_sent w ++ [(c, msg, send_ok c)] |}
                Hn Ht1) as [Hn2 Hs2].
    destruct (IH (S i) (tl sched) _ Hn2 Ht2) as [new [Hw Hnew]].
    exists ((c, msg, send_ok c) :: new). split.
    + rewrite Hw, Hs2. cbn [w_sent]. rewrite <- app_assoc. reflexivity.
    + intros c' m b [Hi|Hi]; [injection Hi as <- _ _; exact Hc|exact (Hnew _ _ _ Hi)].
Qed.

(** Once a socket registered once has disconnected, the [broadcast] that
    follows returns normally and never sends to it, whatever the other tasks
    do while it is suspended (sockets opening or disconnecting), as long as
    none of them registers that socket again. *)
Theorem disconnected_not_notified send_ok (ws : conn) (l1 l2 : list conn) msg sched (w : world) :
  w_conns w = (l1 ++ ws :: l2)%list -> ~ In ws l1 -> ~ In ws l2 -> ~ In (Opens ws) sched ->
  exists w' new,
    bind (websocket_disconnected ws) (fun _ => broadcast_live send_ok msg sched) w = (Ok tt, w') /\
    w_sent w' = (w_sent w ++ new)%list /\ (forall c m b, In (c, m, b) new -> c <> ws).
Proof.
  intros Hw H1 H2 Hs.
  assert (Hd : websocket_disconnected ws w =
               (Ok tt, {| w_fs := w_fs w; w_conns := (l1 ++ l2)%list; w_sent := w_sent w |})).
  { unfold websocket_disconnected, disconnect, bind, get_conns, set_conns. cbn.
    rewrite Hw, list_remove_app by exact H1. reflexivity. }
  unfold bind at 1. rewrite Hd.
  set (w0 := {| w_fs := w_fs w; w_conns := (l1 ++ l2)%list; w_sent := w_sent w |}).
  assert (Hn : ~ In ws (w_conns w0)).
  { cbn. intros Hi. apply in_app_or in Hi as [Hi|Hi]; [exact (H1 Hi)|exact (H2 Hi)]. }
  unfold broadcast_live.
  destruct (broadcast_iter_avoids send_ok ws (length (w_conns w0) + length sched + 1) 0 msg sched
              w0 Hn Hs) as [new [Hw' Hnew]].
  pose proof (broadcast_iter_ok send_ok (length (w_conns w0) + length sched + 1) 0 msg sched w0)
    as Ho.
  destruct (broadcast_iter send_ok _ 0 msg sched w0) as [r w'] eqn:E. cbn in Ho, Hw'. subst r.
  exists w', new. split; [reflexivity|]. split; [exact Hw'|exact Hnew].
Qed.

Lemma disconnected_not_notified_witness :
  exists w' new,
    bind (websocket_disconnected 2) (fun _ => broadcast_live first_dead new_file_event [Closes 1%nat])
      chat_world = (Ok tt, w') /\
    w_sent w' = (w_sent chat_world ++ new)%list /\ (forall c m b, In (c, m, b) new -> c <> 2%nat).
Proof.
  apply (disconnected_not_notified first_dead 2 [1]%nat [3]%nat new_file_event [Closes 1%nat]
           chat_world).
  - reflexivity.
  - simpl. intros [H|[]]. discriminate H.
  - simpl. intros [H|[]]. discriminate H.
  - simpl. intros [H|[]]. discriminate H.
Defined.

(** *** Letter case and the extension check *)

Lemma lower_char_slash x : Ascii.eqb (PyStr.lower_char x) "/" = Ascii.eqb x "/".
Proof. destruct x as [[] [] [] [] [] [] [] []]; reflexivity. Qed.

Lemma lower_char_dot x : Ascii.eqb (PyStr.lower_char x) "." = Ascii.eqb x ".".
Proof. destruct x as [[] [] [] [] [] [] [] []]; reflexivity. Qed.

Lemma lower_char_idem x : PyStr.lower_char (PyStr.lower_char x) = PyStr.lower_char x.
Proof. destruct x as [[] [] [] [] [] [] [] []]; reflexivity. Qed.

Lemma lower_idem s : PyStr.lower (PyStr.lower s) = PyStr.lower s.
Proof. induction s as [|x r IH]; simpl; [reflexivity|]. rewrite lower_char_idem, IH. reflexivity. Qed.

Lemma lower_length s : String.length (PyStr.lower s) = String.length s.
Proof. induction s as [|x r IH]; simpl; [reflexivity|]. rewrite IH. reflexivity. Qed.

Lemma lower_substring i k s :
  String.substring i k (PyStr.lower s) = PyStr.lower (String.substring i k s).
Proof.
  revert i k. induction s as [|x r IH]; intros [|i] [|k]; simpl; try reflexivity.
  - rewrite IH. reflexivity.
  - apply IH.
  - apply IH.
Qed.

Lemma lower_rfind_dot s : PyStr.rfind "." (PyStr.lower s) = PyStr.rfind "." s.
Proof.
  induction s as [|x r IH]; simpl; [reflexivity|]. rewrite IH, lower_char_dot. reflexivity.
Qed.

Lemma split_on_lower s :
  PyStr.split_on "/" (PyStr.lower s) = map PyStr.lower (PyStr.split_on "/" s).
Proof.
  induction s as [|x r IH]; simpl; [reflexivity|].
  rewrite lower_char_slash, IH. destruct (Ascii.eqb x "/"); [reflexivity|].
  destruct (PyStr.split_on "/" r); reflexivity.
Qed.

Lemma lower_eqb_empty s : String.eqb (PyStr.lower s) "" = String.eqb s "".
Proof. destruct s; reflexivity. Qed.

Lemma lower_eqb_dot s : String.eqb (PyStr.lower s) "." = String.eqb s ".".
Proof.
  destruct s as [|x [|y r]]; [reflexivity| |].
  - destruct x as [[] [] [] [] [] [] [] []]; reflexivity.
  - destruct (String.eqb_spec (PyStr.lower (String x (String y r))) ".") as [E|_];
      [discriminate E|].
    destruct (String.eqb_spec (String x (String y r)) ".") as [E|_]; [discriminate E|reflexivity].
Qed.

Lemma filter_parts_lower (l : list string) :
  filter (fun x => negb (String.eqb x "" || String.eqb x ".")) (map PyStr.lower l) =
  map PyStr.lower (filter (fun x => negb (String.eqb x "" || String.eqb x ".")) l).
Proof.
  induction l as [|x r IH]; [reflexivity|]. cbn [map]. rewrite !filter_cons.
  rewrite lower_eqb_empty, lower_eqb_dot.
  destruct (decide _); cbn [map]; rewrite IH; reflexivity.
Qed.

Lemma last_part_lower (l : list string) :
  PPath.last_part (map PyStr.lower l) = PyStr.lower (PPath.last_part l).
Proof.
  induction l as [|x r IH]; [reflexivity|].
  destruct r as [|y r']; [reflexivity|]. exact IH.
Qed.

Lemma suffix_lower s :
  PPath.suffix (PPath.parse (PyStr.lower s)) = PyStr.lower (PPath.suffix (PPath.parse s)).
Proof.
  unfold PPath.suffix, PPath.name, PPath.parse. cbn [PPath.p_parts].
  rewrite split_on_lower, filter_parts_lower, last_part_lower.
  rewrite lower_rfind_dot, lower_length.
  destruct (PyStr.rfind "." _) as [i|]; [|reflexivity].
  destruct (_ && _); [apply lower_substring|reflexivity].
Qed.

(** main_comentado.py compares extensions in lower case: two file names of
    7-bit ASCII characters (where [PyStr.lower] is Python's [str.lower]) that
    differ only in the case of their letters get the same extension, so the
    extension check accepts both or refuses both. *)
Theorem file_ext_case_insensitive n1 n2 :
  is_ascii7 n1 = true -> is_ascii7 n2 = true ->
  PyStr.lower n1 = PyStr.lower n2 -> file_ext (Some n1) = file_ext (Some n2).
Proof.
  assert (Hl : forall n, file_ext (Some (PyStr.lower n)) = file_ext (Some n)).
  { intros n. unfold file_ext. rewrite lower_eqb_empty.
    destruct (String.eqb n ""); [reflexivity|].
    rewrite suffix_lower. apply lower_idem. }
  intros _ _ H. rewrite <- (Hl n1), <- (Hl n2), H. reflexivity.
Qed.

Lemma file_ext_case_insensitive_witness :
  file_ext (Some "Photo.JPG") = file_ext (Some "photo.jpg").
Proof. apply file_ext_case_insensitive; reflexivity. Defined.
